(** * Pico gateway firmware (Pico/main.py): serial framing and security controller

    A shallow embedding of the MicroPython program.  The module-level
    variables of the script become the fields of one record, every function
    that reads [time.ticks_ms()] takes the reading as its argument [now], and
    the two output channels (bytes written to the UART, messages handed to
    [safe_mqtt_publish]) are appended to a trace kept in the record. *)

From Stdlib Require Import ZArith List String Ascii Bool Lia DecimalString.
Import ListNotations.

Set Primitive Projections.
Local Open Scope Z_scope.

(** ** Bytes, text and the built-ins the script relies on *)

Module Py.

(** [c[0]] of a one-byte [bytes] object. *)
Definition byte_val (c : ascii) : Z := Z.of_N (N_of_ascii c).

(** [bytes([cmd])]; the script only passes its command constants (20..27). *)
Definition bytes1 (cmd : Z) : string := String (ascii_of_N (Z.to_N cmd)) EmptyString.

Definition NL : ascii := "010"%char.
Definition COLON : ascii := ":"%char.

(** A [str] is kept as its UTF-8 bytes, the representation MicroPython uses,
    so [encode('utf-8')] is the identity and [decode('utf-8')] is a validity
    check (py/unicode.c, [utf8_check]). *)
Definition encode (s : string) : string := s.

Fixpoint utf8_check_from (need : Z) (p : string) : bool :=
  match p with
  | EmptyString => need =? 0
  | String ch rest =>
      let c := byte_val ch in
      if negb (need =? 0) then
        if Z.land c 192 =? 128 then utf8_check_from (need - 1) rest else false
      else if 192 <=? c then
        if 248 <=? c then false
        else utf8_check_from (Z.land (Z.shiftr 229 (Z.land (Z.shiftr c 3) 6)) 3) rest
      else if 128 <=? c then false
      else utf8_check_from 0 rest
  end.

Definition utf8_check (p : string) : bool := utf8_check_from 0 p.

(** [b.decode('utf-8')]: [None] stands for the [UnicodeError] it raises. *)
Definition decode (b : string) : option string :=
  if utf8_check b then Some b else None.

(** [str.strip()] without arguments removes ASCII white space at both ends. *)
Definition is_space (c : ascii) : bool :=
  let n := byte_val c in ((9 <=? n) && (n <=? 13)) || (n =? 32).

Fixpoint lstrip (s : string) : string :=
  match s with
  | EmptyString => EmptyString
  | String c r => if is_space c then lstrip r else s
  end.

Fixpoint rstrip (s : string) : string :=
  match s with
  | EmptyString => EmptyString
  | String c r =>
      match rstrip r with
      | EmptyString => if is_space c then EmptyString else String c EmptyString
      | r' => String c r'
      end
  end.

Definition strip (s : string) : string := rstrip (lstrip s).

(** [s[n:]] counts characters, not bytes: one character is a lead byte and the
    continuation bytes (10xxxxxx) after it. *)
Fixpoint skip_cont (s : string) : string :=
  match s with
  | String c r => if Z.land (byte_val c) 192 =? 128 then skip_cont r else s
  | EmptyString => EmptyString
  end.

Fixpoint slice_from (n : nat) (s : string) : string :=
  match n, s with
  | O, _ => s
  | S _, EmptyString => EmptyString
  | S n', String _ r => slice_from n' (skip_cont r)
  end.

Definition startswith (s p : string) : bool := String.prefix p s.

(** [int(s)] on text: optional white space, an optional sign, decimal digits
    in which a single underscore may stand between two digits (["1_0"] is
    10), optional white space.  [None] stands for [ValueError]. *)
Definition digit_val (c : ascii) : option Z :=
  let n := byte_val c in if (48 <=? n) && (n <=? 57) then Some (n - 48) else None.

(** The digits after the first one. *)
Fixpoint digits (acc : Z) (s : string) : option Z :=
  match s with
  | EmptyString => Some acc
  | String c r =>
      match digit_val c with
      | Some d => digits (10 * acc + d) r
      | None =>
          if Ascii.eqb c "_" then
            match r with
            | String c' r' =>
                match digit_val c' with
                | Some d => digits (10 * acc + d) r'
                | None => None
                end
            | EmptyString => None
            end
          else None
      end
  end.

Definition unsigned (s : string) : option Z :=
  match s with
  | EmptyString => None
  | String c r =>
      match digit_val c with
      | Some d => digits d r
      | None => None
      end
  end.

Definition int (s : string) : option Z :=
  match strip s with
  | String "-" r => option_map Z.opp (unsigned r)
  | String "+" r => unsigned r
  | r => unsigned r
  end.

(** [f"{n}"] for an integer. *)
Definition str_of_int (n : Z) : string := NilZero.string_of_int (Z.to_int n).

(** [b':' in buf] and [buf.split(b':', 1)]: the text before the first colon
    and the text after it. *)
Fixpoint split_colon (buf : string) : option (string * string) :=
  match buf with
  | EmptyString => None
  | String c r =>
      if Ascii.eqb c COLON then Some (EmptyString, r)
      else match split_colon r with
           | Some (h, t) => Some (String c h, t)
           | None => None
           end
  end.

End Py.

(** ** The monotonic millisecond clock

    [time.ticks_ms()] counts modulo [TICKS_PERIOD] (2^30 on the RP2 port) and
    [time.ticks_diff] is the signed difference in that ring. *)

Definition TICKS_PERIOD : Z := 2 ^ 30.
Definition TICKS_HALF : Z := TICKS_PERIOD / 2.

Definition ticks_diff (a b : Z) : Z :=
  (a - b + TICKS_HALF) mod TICKS_PERIOD - TICKS_HALF.

Definition ticks_add (t d : Z) : Z := (t + d) mod TICKS_PERIOD.

(** ** Constants of the script *)

Definition topic_pub : string := "home/arduino/events".
Definition topic_sub : string := "home/arduino/command".
Definition topic_auth_request : string := "home/arduino/auth_requests".
Definition topic_auth_response : string := "home/arduino/auth_response".

Definition MSG_STATUS_READY : Z := 1.
Definition MSG_MOTION_DETECTED : Z := 2.
Definition MSG_MOTION_STOPPED : Z := 3.
Definition MSG_RFID_DETECTED : Z := 4.
Definition MSG_BUTTON_PRESSED : Z := 5.
Definition MSG_RFID_READ_SUCCESS : Z := 6.
Definition MSG_RFID_READ_FAILED : Z := 7.
Definition MSG_RFID_WRITE_SUCCESS : Z := 8.
Definition MSG_RFID_WRITE_FAILED : Z := 9.
Definition MSG_RFID_WRITE_COMPLETED : Z := 10.
Definition MSG_STATUS_UPDATE : Z := 11.
Definition MSG_HEARTBEAT : Z := 12.

Definition CMD_SET_LED_RGB : Z := 20.
Definition CMD_SET_BUZZER_ON : Z := 21.
Definition CMD_SET_BUZZER_OFF : Z := 22.
Definition CMD_RFID_WRITE_PREPARE : Z := 23.
Definition CMD_RFID_WRITE_CONFIRM : Z := 24.
Definition CMD_RFID_NORMAL_MODE : Z := 25.
Definition CMD_ACK : Z := 26.
Definition CMD_REQUEST_STATUS : Z := 27.

(** What [set_led_color] may be handed: a 3-tuple, a string, anything else. *)
Inductive color : Type :=
  | Rgb (red green blue : Z)
  | RgbText (s : string)
  | NotAColor.

Definition LED_OFF : color := Rgb 0 0 0.
Definition LED_RED : color := Rgb 255 0 0.
Definition LED_GREEN : color := Rgb 0 255 0.
Definition LED_BLUE : color := Rgb 0 0 255.
Definition LED_YELLOW : color := Rgb 255 255 0.
Definition LED_PURPLE : color := Rgb 255 0 255.
Definition LED_CYAN : color := Rgb 0 255 255.
Definition LED_WHITE : color := Rgb 255 255 255.
Definition LED_ORANGE : color := Rgb 255 165 0.

Inductive SecurityState : Type :=
  | READY
  | MOTION_DETECTED
  | ALARM_ACTIVE
  | ALARM_DISABLED
  | RFID_WRITE_MODE.

Definition alarm_disable_duration : Z := 60000.
Definition motion_grace_period : Z := 5000.
Definition arduino_timeout : Z := 30000.
Definition led_blink_interval : Z := 200.
Definition pico_heartbeat_interval : Z := 15000.

(** ** Observable effects and the program state *)

(** [UartWrite b] is one call [uart.write(b)]; [Publish t m] is one call
    [safe_mqtt_publish(t, m)] (whether the broker is reachable is the
    transport's concern). *)
Inductive effect : Type :=
  | UartWrite (data : string)
  | Publish (topic message : string).

Record Pico : Type := mkPico {
  current_state : SecurityState;
  motion_start_time : Z;
  alarm_disabled_time : Z;
  current_rfid_secret : option string;
  manually_activated : bool;
  alarm_disable_end_time : Z;
  alarm_disable_permanent : bool;
  last_arduino_heartbeat : Z;
  arduino_connected : bool;
  led_blink_active : bool;
  led_blink_count : Z;
  led_blink_max_count : Z;
  led_blink_last_time : Z;
  led_blink_is_on : bool;
  led_blink_color : color;
  last_pico_heartbeat : Z;
  uart_buffer : string;
  trace : list effect
}.

Definition set_current_state (v : SecurityState) (s : Pico) : Pico :=
  {| current_state := v; motion_start_time := motion_start_time s;
     alarm_disabled_time := alarm_disabled_time s;
     current_rfid_secret := current_rfid_secret s;
     manually_activated := manually_activated s;
     alarm_disable_end_time := alarm_disable_end_time s;
     alarm_disable_permanent := alarm_disable_permanent s;
     last_arduino_heartbeat := last_arduino_heartbeat s;
     arduino_connected := arduino_connected s; led_blink_active := led_blink_active s;
     led_blink_count := led_blink_count s; led_blink_max_count := led_blink_max_count s;
     led_blink_last_time := led_blink_last_time s; led_blink_is_on := led_blink_is_on s;
     led_blink_color := led_blink_color s; last_pico_heartbeat := last_pico_heartbeat s;
     uart_buffer := uart_buffer s; trace := trace s |}.

Definition set_motion_start_time (v : Z) (s : Pico) : Pico :=
  {| current_state := current_state s; motion_start_time := v;
     alarm_disabled_time := alarm_disabled_time s;
     current_rfid_secret := current_rfid_secret s;
     manually_activated := manually_activated s;
     alarm_disable_end_time := alarm_disable_end_time s;
     alarm_disable_permanent := alarm_disable_permanent s;
     last_arduino_heartbeat := last_arduino_heartbeat s;
     arduino_connected := arduino_connected s; led_blink_active := led_blink_active s;
     led_blink_count := led_blink_count s; led_blink_max_count := led_blink_max_count s;
     led_blink_last_time := led_blink_last_time s; led_blink_is_on := led_blink_is_on s;
     led_blink_color := led_blink_color s; last_pico_heartbeat := last_pico_heartbeat s;
     uart_buffer := uart_buffer s; trace := trace s |}.

Definition set_alarm_disabled_time (v : Z) (s : Pico) : Pico :=
  {| current_state := current_state s; motion_start_time := motion_start_time s;
     alarm_disabled_time := v; current_rfid_secret := current_rfid_secret s;
     manually_activated := manually_activated s;
     alarm_disable_end_time := alarm_disable_end_time s;
     alarm_disable_permanent := alarm_disable_permanent s;
     last_arduino_heartbeat := last_arduino_heartbeat s;
     arduino_connected := arduino_connected s; led_blink_active := led_blink_active s;
     led_blink_count := led_blink_count s; led_blink_max_count := led_blink_max_count s;
     led_blink_last_time := led_blink_last_time s; led_blink_is_on := led_blink_is_on s;
     led_blink_color := led_blink_color s; last_pico_heartbeat := last_pico_heartbeat s;
     uart_buffer := uart_buffer s; trace := trace s |}.

Definition set_current_rfid_secret (v : option string) (s : Pico) : Pico :=
  {| current_state := current_state s; motion_start_time := motion_start_time s;
     alarm_disabled_time := alarm_disabled_time s; current_rfid_secret := v;
     manually_activated := manually_activated s;
     alarm_disable_end_time := alarm_disable_end_time s;
     alarm_disable_permanent := alarm_disable_permanent s;
     last_arduino_heartbeat := last_arduino_heartbeat s;
     arduino_connected := arduino_connected s; led_blink_active := led_blink_active s;
     led_blink_count := led_blink_count s; led_blink_max_count := led_blink_max_count s;
     led_blink_last_time := led_blink_last_time s; led_blink_is_on := led_blink_is_on s;
     led_blink_color := led_blink_color s; last_pico_heartbeat := last_pico_heartbeat s;
     uart_buffer := uart_buffer s; trace := trace s |}.

Definition set_manually_activated (v : bool) (s : Pico) : Pico :=
  {| current_state := current_state s; motion_start_time := motion_start_time s;
     alarm_disabled_time := alarm_disabled_time s;
     current_rfid_secret := current_rfid_secret s; manually_activated := v;
     alarm_disable_end_time := alarm_disable_end_time s;
     alarm_disable_permanent := alarm_disable_permanent s;
     last_arduino_heartbeat := last_arduino_heartbeat s;
     arduino_connected := arduino_connected s; led_blink_active := led_blink_active s;
     led_blink_count := led_blink_count s; led_blink_max_count := led_blink_max_count s;
     led_blink_last_time := led_blink_last_time s; led_blink_is_on := led_blink_is_on s;
     led_blink_color := led_blink_color s; last_pico_heartbeat := last_pico_heartbeat s;
     uart_buffer := uart_buffer s; trace := trace s |}.

Definition set_alarm_disable_end_time (v : Z) (s : Pico) : Pico :=
  {| current_state := current_state s; motion_start_time := motion_start_time s;
     alarm_disabled_time := alarm_disabled_time s;
     current_rfid_secret := current_rfid_secret s;
     manually_activated := manually_activated s; alarm_disable_end_time := v;
     alarm_disable_permanent := alarm_disable_permanent s;
     last_arduino_heartbeat := last_arduino_heartbeat s;
     arduino_connected := arduino_connected s; led_blink_active := led_blink_active s;
     led_blink_count := led_blink_count s; led_blink_max_count := led_blink_max_count s;
     led_blink_last_time := led_blink_last_time s; led_blink_is_on := led_blink_is_on s;
     led_blink_color := led_blink_color s; last_pico_heartbeat := last_pico_heartbeat s;
     uart_buffer := uart_buffer s; trace := trace s |}.

Definition set_alarm_disable_permanent (v : bool) (s : Pico) : Pico :=
  {| current_state := current_state s; motion_start_time := motion_start_time s;
     alarm_disabled_time := alarm_disabled_time s;
     current_rfid_secret := current_rfid_secret s;
     manually_activated := manually_activated s;
     alarm_disable_end_time := alarm_disable_end_time s; alarm_disable_permanent := v;
     last_arduino_heartbeat := last_arduino_heartbeat s;
     arduino_connected := arduino_connected s; led_blink_active := led_blink_active s;
     led_blink_count := led_blink_count s; led_blink_max_count := led_blink_max_count s;
     led_blink_last_time := led_blink_last_time s; led_blink_is_on := led_blink_is_on s;
     led_blink_color := led_blink_color s; last_pico_heartbeat := last_pico_heartbeat s;
     uart_buffer := uart_buffer s; trace := trace s |}.

Definition set_last_arduino_heartbeat (v : Z) (s : Pico) : Pico :=
  {| current_state := current_state s; motion_start_time := motion_start_time s;
     alarm_disabled_time := alarm_disabled_time s;
     current_rfid_secret := current_rfid_secret s;
     manually_activated := manually_activated s;
     alarm_disable_end_time := alarm_disable_end_time s;
     alarm_disable_permanent := alarm_disable_permanent s; last_arduino_heartbeat := v;
     arduino_connected := arduino_connected s; led_blink_active := led_blink_active s;
     led_blink_count := led_blink_count s; led_blink_max_count := led_blink_max_count s;
     led_blink_last_time := led_blink_last_time s; led_blink_is_on := led_blink_is_on s;
     led_blink_color := led_blink_color s; last_pico_heartbeat := last_pico_heartbeat s;
     uart_buffer := uart_buffer s; trace := trace s |}.

Definition set_arduino_connected (v : bool) (s : Pico) : Pico :=
  {| current_state := current_state s; motion_start_time := motion_start_time s;
     alarm_disabled_time := alarm_disabled_time s;
     current_rfid_secret := current_rfid_secret s;
     manually_activated := manually_activated s;
     alarm_disable_end_time := alarm_disable_end_time s;
     alarm_disable_permanent := alarm_disable_permanent s;
     last_arduino_heartbeat := last_arduino_heartbeat s; arduino_connected := v;
     led_blink_active := led_blink_active s; led_blink_count := led_blink_count s;
     led_blink_max_count := led_blink_max_count s;
     led_blink_last_time := led_blink_last_time s; led_blink_is_on := led_blink_is_on s;
     led_blink_color := led_blink_color s; last_pico_heartbeat := last_pico_heartbeat s;
     uart_buffer := uart_buffer s; trace := trace s |}.

Definition set_led_blink_active (v : bool) (s : Pico) : Pico :=
  {| current_state := current_state s; motion_start_time := motion_start_time s;
     alarm_disabled_time := alarm_disabled_time s;
     current_rfid_secret := current_rfid_secret s;
     manually_activated := manually_activated s;
     alarm_disable_end_time := alarm_disable_end_time s;
     alarm_disable_permanent := alarm_disable_permanent s;
     last_arduino_heartbeat := last_arduino_heartbeat s;
     arduino_connected := arduino_connected s; led_blink_active := v;
     led_blink_count := led_blink_count s; led_blink_max_count := led_blink_max_count s;
     led_blink_last_time := led_blink_last_time s; led_blink_is_on := led_blink_is_on s;
     led_blink_color := led_blink_color s; last_pico_heartbeat := last_pico_heartbeat s;
     uart_buffer := uart_buffer s; trace := trace s |}.

Definition set_led_blink_count (v : Z) (s : Pico) : Pico :=
  {| current_state := current_state s; motion_start_time := motion_start_time s;
     alarm_disabled_time := alarm_disabled_time s;
     current_rfid_secret := current_rfid_secret s;
     manually_activated := manually_activated s;
     alarm_disable_end_time := alarm_disable_end_time s;
     alarm_disable_permanent := alarm_disable_permanent s;
     last_arduino_heartbeat := last_arduino_heartbeat s;
     arduino_connected := arduino_connected s; led_blink_active := led_blink_active s;
     led_blink_count := v; led_blink_max_count := led_blink_max_count s;
     led_blink_last_time := led_blink_last_time s; led_blink_is_on := led_blink_is_on s;
     led_blink_color := led_blink_color s; last_pico_heartbeat := last_pico_heartbeat s;
     uart_buffer := uart_buffer s; trace := trace s |}.

Definition set_led_blink_max_count (v : Z) (s : Pico) : Pico :=
  {| current_state := current_state s; motion_start_time := motion_start_time s;
     alarm_disabled_time := alarm_disabled_time s;
     current_rfid_secret := current_rfid_secret s;
     manually_activated := manually_activated s;
     alarm_disable_end_time := alarm_disable_end_time s;
     alarm_disable_permanent := alarm_disable_permanent s;
     last_arduino_heartbeat := last_arduino_heartbeat s;
     arduino_connected := arduino_connected s; led_blink_active := led_blink_active s;
     led_blink_count := led_blink_count s; led_blink_max_count := v;
     led_blink_last_time := led_blink_last_time s; led_blink_is_on := led_blink_is_on s;
     led_blink_color := led_blink_color s; last_pico_heartbeat := last_pico_heartbeat s;
     uart_buffer := uart_buffer s; trace := trace s |}.

Definition set_led_blink_last_time (v : Z) (s : Pico) : Pico :=
  {| current_state := current_state s; motion_start_time := motion_start_time s;
     alarm_disabled_time := alarm_disabled_time s;
     current_rfid_secret := current_rfid_secret s;
     manually_activated := manually_activated s;
     alarm_disable_end_time := alarm_disable_end_time s;
     alarm_disable_permanent := alarm_disable_permanent s;
     last_arduino_heartbeat := last_arduino_heartbeat s;
     arduino_connected := arduino_connected s; led_blink_active := led_blink_active s;
     led_blink_count := led_blink_count s; led_blink_max_count := led_blink_max_count s;
     led_blink_last_time := v; led_blink_is_on := led_blink_is_on s;
     led_blink_color := led_blink_color s; last_pico_heartbeat := last_pico_heartbeat s;
     uart_buffer := uart_buffer s; trace := trace s |}.

Definition set_led_blink_is_on (v : bool) (s : Pico) : Pico :=
  {| current_state := current_state s; motion_start_time := motion_start_time s;
     alarm_disabled_time := alarm_disabled_time s;
     current_rfid_secret := current_rfid_secret s;
     manually_activated := manually_activated s;
     alarm_disable_end_time := alarm_disable_end_time s;
     alarm_disable_permanent := alarm_disable_permanent s;
     last_arduino_heartbeat := last_arduino_heartbeat s;
     arduino_connected := arduino_connected s; led_blink_active := led_blink_active s;
     led_blink_count := led_blink_count s; led_blink_max_count := led_blink_max_count s;
     led_blink_last_time := led_blink_last_time s; led_blink_is_on := v;
     led_blink_color := led_blink_color s; last_pico_heartbeat := last_pico_heartbeat s;
     uart_buffer := uart_buffer s; trace := trace s |}.

Definition set_led_blink_color (v : color) (s : Pico) : Pico :=
  {| current_state := current_state s; motion_start_time := motion_start_time s;
     alarm_disabled_time := alarm_disabled_time s;
     current_rfid_secret := current_rfid_secret s;
     manually_activated := manually_activated s;
     alarm_disable_end_time := alarm_disable_end_time s;
     alarm_disable_permanent := alarm_disable_permanent s;
     last_arduino_heartbeat := last_arduino_heartbeat s;
     arduino_connected := arduino_connected s; led_blink_active := led_blink_active s;
     led_blink_count := led_blink_count s; led_blink_max_count := led_blink_max_count s;
     led_blink_last_time := led_blink_last_time s; led_blink_is_on := led_blink_is_on s;
     led_blink_color := v; last_pico_heartbeat := last_pico_heartbeat s;
     uart_buffer := uart_buffer s; trace := trace s |}.

Definition set_last_pico_heartbeat (v : Z) (s : Pico) : Pico :=
  {| current_state := current_state s; motion_start_time := motion_start_time s;
     alarm_disabled_time := alarm_disabled_time s;
     current_rfid_secret := current_rfid_secret s;
     manually_activated := manually_activated s;
     alarm_disable_end_time := alarm_disable_end_time s;
     alarm_disable_permanent := alarm_disable_permanent s;
     last_arduino_heartbeat := last_arduino_heartbeat s;
     arduino_connected := arduino_connected s; led_blink_active := led_blink_active s;
     led_blink_count := led_blink_count s; led_blink_max_count := led_blink_max_count s;
     led_blink_last_time := led_blink_last_time s; led_blink_is_on := led_blink_is_on s;
     led_blink_color := led_blink_color s; last_pico_heartbeat := v;
     uart_buffer := uart_buffer s; trace := trace s |}.

Definition set_uart_buffer (v : string) (s : Pico) : Pico :=
  {| current_state := current_state s; motion_start_time := motion_start_time s;
     alarm_disabled_time := alarm_disabled_time s;
     current_rfid_secret := current_rfid_secret s;
     manually_activated := manually_activated s;
     alarm_disable_end_time := alarm_disable_end_time s;
     alarm_disable_permanent := alarm_disable_permanent s;
     last_arduino_heartbeat := last_arduino_heartbeat s;
     arduino_connected := arduino_connected s; led_blink_active := led_blink_active s;
     led_blink_count := led_blink_count s; led_blink_max_count := led_blink_max_count s;
     led_blink_last_time := led_blink_last_time s; led_blink_is_on := led_blink_is_on s;
     led_blink_color := led_blink_color s; last_pico_heartbeat := last_pico_heartbeat s;
     uart_buffer := v; trace := trace s |}.

Definition set_trace (v : list effect) (s : Pico) : Pico :=
  {| current_state := current_state s; motion_start_time := motion_start_time s;
     alarm_disabled_time := alarm_disabled_time s;
     current_rfid_secret := current_rfid_secret s;
     manually_activated := manually_activated s;
     alarm_disable_end_time := alarm_disable_end_time s;
     alarm_disable_permanent := alarm_disable_permanent s;
     last_arduino_heartbeat := last_arduino_heartbeat s;
     arduino_connected := arduino_connected s; led_blink_active := led_blink_active s;
     led_blink_count := led_blink_count s; led_blink_max_count := led_blink_max_count s;
     led_blink_last_time := led_blink_last_time s; led_blink_is_on := led_blink_is_on s;
     led_blink_color := led_blink_color s; last_pico_heartbeat := last_pico_heartbeat s;
     uart_buffer := uart_buffer s; trace := v |}.

(** State transformers are sequenced left to right, in program order. *)
Definition seq (f g : Pico -> Pico) : Pico -> Pico := fun s => g (f s).
Infix ";;" := seq (at level 61, left associativity).

Definition skip : Pico -> Pico := fun s => s.

Definition state_eqb (a b : SecurityState) : bool :=
  match a, b with
  | READY, READY | MOTION_DETECTED, MOTION_DETECTED | ALARM_ACTIVE, ALARM_ACTIVE
  | ALARM_DISABLED, ALARM_DISABLED | RFID_WRITE_MODE, RFID_WRITE_MODE => true
  | _, _ => false
  end.

(** The values the module-level assignments give before the main loop starts,
    with the [PICO_READY] announcement already published. *)
Definition initial : Pico :=
  {| current_state := READY; motion_start_time := 0; alarm_disabled_time := 0;
     current_rfid_secret := None; manually_activated := false;
     alarm_disable_end_time := 0; alarm_disable_permanent := false;
     last_arduino_heartbeat := 0; arduino_connected := false;
     led_blink_active := false; led_blink_count := 0; led_blink_max_count := 0;
     led_blink_last_time := 0; led_blink_is_on := false; led_blink_color := LED_OFF;
     last_pico_heartbeat := 0; uart_buffer := EmptyString;
     trace := [Publish topic_pub "PICO_READY"] |}.

(** ** Output primitives *)

Definition emit (e : effect) : Pico -> Pico := fun s => set_trace (trace s ++ [e]) s.

Definition safe_mqtt_publish (topic message : string) : Pico -> Pico :=
  emit (Publish topic message).

Definition send_uart_command (cmd : Z) : Pico -> Pico :=
  emit (UartWrite (Py.bytes1 cmd)).

Definition send_uart_command_with_data (cmd : Z) (data : string) : Pico -> Pico :=
  emit (UartWrite (Py.bytes1 cmd)) ;;
  emit (UartWrite ":") ;;
  emit (UartWrite (Py.encode data)) ;;
  emit (UartWrite (String Py.NL EmptyString)).

(** The bytes put on the serial line by a trace. *)
Fixpoint wire (t : list effect) : string :=
  match t with
  | [] => EmptyString
  | UartWrite b :: r => (b ++ wire r)%string
  | Publish _ _ :: r => wire r
  end.

(** ** LED signal driver *)

Definition clamp (v : Z) : Z := Z.max 0 (Z.min 255 v).

Definition set_led_color (c : color) : Pico -> Pico :=
  let rgb_data :=
    match c with
    | Rgb red green blue =>
        (Py.str_of_int (clamp red) ++ "," ++ Py.str_of_int (clamp green) ++ ","
           ++ Py.str_of_int (clamp blue))%string
    | RgbText t => t
    | NotAColor => "0,0,0"%string
    end in
  send_uart_command_with_data CMD_SET_LED_RGB rgb_data.

Definition start_led_blink (now : Z) (c : color) (blink_count : Z) : Pico -> Pico :=
  set_led_blink_active true ;;
  set_led_blink_count 0 ;;
  set_led_blink_max_count (blink_count * 2) ;;
  set_led_blink_last_time now ;;
  set_led_blink_is_on false ;;
  set_led_blink_color c ;;
  set_led_color c ;;
  set_led_blink_is_on true.

Definition update_led_blink (now : Z) : Pico -> Pico := fun s =>
  if negb (led_blink_active s) then s
  else if led_blink_interval <=? ticks_diff now (led_blink_last_time s) then
    let s1 := (set_led_blink_count (led_blink_count s + 1) ;;
               set_led_blink_last_time now) s in
    if led_blink_max_count s1 <=? led_blink_count s1 then
      (set_led_color LED_OFF ;; set_led_blink_active false ;; set_led_blink_is_on false) s1
    else if led_blink_is_on s1 then
      (set_led_color LED_OFF ;; set_led_blink_is_on false) s1
    else
      (set_led_color (led_blink_color s1) ;; set_led_blink_is_on true) s1
  else s.

(** ** Security controller *)

Definition handle_motion_detected (now : Z) : Pico -> Pico := fun s =>
  if state_eqb (current_state s) ALARM_DISABLED then
    safe_mqtt_publish topic_pub "MOTION_DETECTED" s
  else
    let s1 := safe_mqtt_publish topic_pub "MOTION_DETECTED" s in
    if state_eqb (current_state s1) ALARM_ACTIVE then s1
    else if state_eqb (current_state s1) READY then
      (set_motion_start_time now ;;
       set_current_state MOTION_DETECTED ;;
       set_led_color LED_ORANGE) s1
    else s1.

Definition handle_motion_stopped : Pico -> Pico := fun s =>
  let s1 := safe_mqtt_publish topic_pub "MOTION_STOPPED" s in
  if state_eqb (current_state s1) ALARM_DISABLED then s1
  else if state_eqb (current_state s1) ALARM_ACTIVE then s1
  else if state_eqb (current_state s1) MOTION_DETECTED then
    (set_current_state READY ;; set_led_color LED_OFF) s1
  else s1.

Definition activate_alarm : Pico -> Pico := fun s =>
  if state_eqb (current_state s) ALARM_DISABLED then s
  else
    (set_current_state ALARM_ACTIVE ;;
     set_manually_activated false ;;
     send_uart_command CMD_SET_BUZZER_ON ;;
     set_led_color LED_RED ;;
     safe_mqtt_publish topic_pub "ALARM_TRIGGERED") s.

Definition check_motion_timeout (now : Z) : Pico -> Pico := fun s =>
  if state_eqb (current_state s) MOTION_DETECTED then
    if motion_grace_period <? ticks_diff now (motion_start_time s) then activate_alarm s
    else s
  else s.

Definition handle_rfid_detected (secret_key : string) : Pico -> Pico :=
  set_current_rfid_secret (Some secret_key) ;;
  safe_mqtt_publish topic_auth_request ("AUTH_REQUEST:" ++ secret_key)%string.

Definition handle_auth_success (now : Z) : Pico -> Pico := fun s =>
  if manually_activated s && state_eqb (current_state s) ALARM_ACTIVE then
    (safe_mqtt_publish topic_auth_request "ACK_AUTH_SUCCESS" ;;
     safe_mqtt_publish topic_pub "AUTH_SUCCESS_BLOCKED") s
  else
    (set_current_state ALARM_DISABLED ;;
     set_alarm_disabled_time now ;;
     send_uart_command CMD_SET_BUZZER_OFF ;;
     set_led_color LED_GREEN ;;
     safe_mqtt_publish topic_auth_request "ACK_AUTH_SUCCESS" ;;
     safe_mqtt_publish topic_pub "ALARM_DISABLED_RFID") s.

Definition handle_auth_failed (now : Z) : Pico -> Pico :=
  start_led_blink now LED_RED 3 ;;
  safe_mqtt_publish topic_auth_request "ACK_AUTH_FAILED" ;;
  safe_mqtt_publish topic_pub "AUTH_FAILED".

(** Declares [global current_state] only. *)
Definition disable_alarm : Pico -> Pico :=
  set_current_state ALARM_DISABLED ;;
  send_uart_command CMD_SET_BUZZER_OFF ;;
  set_led_color LED_GREEN ;;
  safe_mqtt_publish topic_pub "ACK_CMD_DISABLE_ALARM".

Definition activate_alarm_manual : Pico -> Pico :=
  set_current_state ALARM_ACTIVE ;;
  set_manually_activated true ;;
  set_alarm_disable_permanent false ;;
  set_alarm_disable_end_time 0 ;;
  send_uart_command CMD_SET_BUZZER_ON ;;
  set_led_color LED_RED ;;
  safe_mqtt_publish topic_pub "ALARM_TRIGGERED" ;;
  safe_mqtt_publish topic_pub "ACK_CMD_ACTIVATE_ALARM".

Definition disable_alarm_permanent : Pico -> Pico :=
  set_current_state ALARM_DISABLED ;;
  set_manually_activated false ;;
  set_alarm_disable_permanent true ;;
  set_alarm_disable_end_time 0 ;;
  send_uart_command CMD_SET_BUZZER_OFF ;;
  set_led_color LED_GREEN ;;
  safe_mqtt_publish topic_pub "ACK_CMD_DISABLE_ALARM".

Definition disable_alarm_timed (now : Z) (minutes : Z) : Pico -> Pico :=
  set_current_state ALARM_DISABLED ;;
  set_manually_activated false ;;
  set_alarm_disable_permanent false ;;
  set_alarm_disable_end_time (now + minutes * 60 * 1000) ;;
  send_uart_command CMD_SET_BUZZER_OFF ;;
  set_led_color LED_GREEN ;;
  safe_mqtt_publish topic_pub "ACK_CMD_DISABLE_ALARM".

Definition enable_alarm : Pico -> Pico :=
  set_current_state READY ;;
  set_manually_activated false ;;
  set_alarm_disable_permanent false ;;
  set_alarm_disable_end_time 0 ;;
  send_uart_command CMD_SET_BUZZER_OFF ;;
  set_led_color LED_OFF ;;
  safe_mqtt_publish topic_pub "SECURITY_STATE:READY".

Definition reset_alarm : Pico -> Pico :=
  set_current_state READY ;;
  set_manually_activated false ;;
  set_alarm_disable_permanent false ;;
  set_alarm_disable_end_time 0 ;;
  send_uart_command CMD_SET_BUZZER_OFF ;;
  set_led_color LED_OFF ;;
  safe_mqtt_publish topic_pub "ALARM_RESET" ;;
  safe_mqtt_publish topic_pub "SECURITY_STATE:READY".

Definition handle_button_pressed : Pico -> Pico := reset_alarm.

Definition prepare_rfid_write_mode (secret_key : string) : Pico -> Pico :=
  set_current_state RFID_WRITE_MODE ;;
  send_uart_command_with_data CMD_RFID_WRITE_PREPARE secret_key ;;
  safe_mqtt_publish topic_pub ("STATUS_RFID_WRITE_PREPARED:" ++ secret_key)%string.

Definition confirm_rfid_write_mode : Pico -> Pico := fun s =>
  if state_eqb (current_state s) RFID_WRITE_MODE then
    (send_uart_command CMD_RFID_WRITE_CONFIRM ;;
     safe_mqtt_publish topic_pub "STATUS_RFID_WRITE_ACTIVE") s
  else
    safe_mqtt_publish topic_pub "ERROR_RFID_WRITE_NOT_PREPARED" s.

Definition initialize_rfid_write : Pico -> Pico := fun s =>
  if state_eqb (current_state s) RFID_WRITE_MODE then
    safe_mqtt_publish topic_pub "ACK_CMD_RFID_WRITE_INITALIZE" s
  else s.

(** Declares [global current_state] only. *)
Definition abort_operation : Pico -> Pico :=
  set_current_state READY ;;
  send_uart_command CMD_RFID_NORMAL_MODE ;;
  set_led_color LED_OFF ;;
  safe_mqtt_publish topic_pub "ACK_CMD_ABORT".

Definition check_alarm_timeout (now : Z) : Pico -> Pico := fun s =>
  if state_eqb (current_state s) ALARM_DISABLED then
    if alarm_disable_permanent s then s
    else if (0 <? alarm_disable_end_time s) && (alarm_disable_end_time s <=? now) then
      enable_alarm s
    else if (alarm_disable_end_time s =? 0)
            && (alarm_disable_duration <? ticks_diff now (alarm_disabled_time s)) then
      (set_current_state READY ;;
       set_led_color LED_OFF ;;
       safe_mqtt_publish topic_pub "ALARM_REARMED") s
    else s
  else s.

Definition handle_arduino_heartbeat (now : Z) : Pico -> Pico := fun s =>
  let s1 := (set_last_arduino_heartbeat now ;;
             safe_mqtt_publish topic_pub "ARDUINO_HEARTBEAT") s in
  if negb (arduino_connected s1) then
    (set_arduino_connected true ;; safe_mqtt_publish topic_pub "ARDUINO_CONNECTED") s1
  else s1.

(** Prints only. *)
Definition handle_arduino_status_update : Pico -> Pico := skip.

Definition check_arduino_connection (now : Z) : Pico -> Pico := fun s =>
  if arduino_connected s then
    if arduino_timeout <? ticks_diff now (last_arduino_heartbeat s) then
      (set_arduino_connected false ;;
       safe_mqtt_publish topic_pub "ARDUINO_DISCONNECTED") s
    else s
  else s.

Definition send_pico_heartbeat : Pico -> Pico :=
  safe_mqtt_publish topic_pub "PICO_HEARTBEAT".

(** [process_arduino_message] has no [global] statement.  Its assignment
    [current_state = SecurityState.READY] in the write-completed branch
    therefore binds a name local to the call, shown here as [let]; the
    module-level [current_state] is not written. *)
Definition process_arduino_message (now : Z) (msg_code : Z) : Pico -> Pico := fun s =>
  if msg_code =? MSG_STATUS_READY then safe_mqtt_publish topic_pub "STATUS_READY" s
  else if msg_code =? MSG_MOTION_DETECTED then handle_motion_detected now s
  else if msg_code =? MSG_MOTION_STOPPED then handle_motion_stopped s
  else if msg_code =? MSG_RFID_DETECTED then s
  else if msg_code =? MSG_BUTTON_PRESSED then handle_button_pressed s
  else if msg_code =? MSG_RFID_WRITE_SUCCESS then
    safe_mqtt_publish topic_pub "STATUS_RFID_WRITE_SUCCESS" s
  else if msg_code =? MSG_RFID_WRITE_FAILED then
    safe_mqtt_publish topic_pub "STATUS_RFID_WRITE_FAILED" s
  else if msg_code =? MSG_RFID_WRITE_COMPLETED then
    let s1 := safe_mqtt_publish topic_pub "STATUS_RFID_WRITE_COMPLETED" s in
    let current_state : SecurityState := READY in
    set_led_color LED_OFF s1
  else if msg_code =? MSG_HEARTBEAT then handle_arduino_heartbeat now s
  else if msg_code =? MSG_STATUS_UPDATE then handle_arduino_status_update s
  else s.

(** ** MQTT callback *)

(** Every exception raised inside [sub_cb] (a message that is not UTF-8, an
    [int()] that fails) is caught by its [try] and leaves the state as it
    was; both can only be raised before any handler runs. *)
Definition sub_cb (now : Z) (topic msg : string) : Pico -> Pico := fun s =>
  match Py.decode msg with
  | None => s
  | Some msg_str =>
      if String.eqb topic topic_auth_response then
        if String.eqb msg_str "AUTH_SUCCESS" then handle_auth_success now s
        else if String.eqb msg_str "AUTH_FAILED" then handle_auth_failed now s
        else s
      else if String.eqb msg_str "CMD_DISABLE_ALARM" then disable_alarm s
      else if String.eqb msg_str "CMD_ACTIVATE_ALARM" then activate_alarm_manual s
      else if String.eqb msg_str "CMD_RESET_ALARM" then reset_alarm s
      else if String.eqb msg_str "CMD_DISABLE_ALARM_PERMANENT" then disable_alarm_permanent s
      else if Py.startswith msg_str "CMD_DISABLE_ALARM_TIMED:" then
        match Py.int (Py.slice_from 25 msg_str) with
        | Some minutes => disable_alarm_timed now minutes s
        | None => s
        end
      else if String.eqb msg_str "CMD_ENABLE_ALARM" then enable_alarm s
      else if Py.startswith msg_str "CMD_RFID_WRITE_PREPARE:" then
        prepare_rfid_write_mode (Py.slice_from 23 msg_str) s
      else if String.eqb msg_str "CMD_RFID_WRITE_CONFIRM" then confirm_rfid_write_mode s
      else if String.eqb msg_str "CMD_ABORT" then abort_operation s
      else if String.eqb msg_str "CMD_RFID_WRITE_INITALIZE" then initialize_rfid_write s
      else s
  end.

(** ** Serial frame decoder (the UART part of the main loop)

    The receive line is a list of arrivals: [Rx c] is a byte that is in the
    receive queue when the loop looks for it, [Quiet] a stretch in which the
    line stays silent for at least the 10 ms look-ahead window.  The end of
    the list is silence as well. *)
Inductive rx : Type :=
  | Rx (c : ascii)
  | Quiet.

(** What the loop hands to the dispatchers: a single-byte message (the call
    [process_arduino_message(byte_val)]) or a parsed [msg_code], [data]
    pair. *)
Inductive DeviceMessage : Type :=
  | Simple (opcode : Z)
  | WithData (opcode : Z) (payload : string).

(** The newline branch: what a buffer terminated by ['\n'] parses to.  A
    buffer without a colon, an empty code part and a payload that is not
    UTF-8 yield nothing. *)
Definition parse_frame (uart_buffer : string) : option DeviceMessage :=
  match Py.split_colon uart_buffer with
  | None => None
  | Some (EmptyString, _) => None
  | Some (String code _, rest) =>
      match Py.decode rest with
      | Some text => Some (WithData (Py.byte_val code) (Py.strip text))
      | None => None
      end
  end.

Definition starts_frame (uart_buffer : string) (c : ascii) : bool :=
  (String.length uart_buffer =? 1)%nat && (1 <=? Py.byte_val c) && (Py.byte_val c <=? 28).

(** The loop body decodes and dispatches in one pass.  No dispatcher reads or
    writes [uart_buffer] or the receive queue, so the pass is written as the
    decoder, which returns the messages in the order they are dispatched and
    the buffer left behind, followed by the dispatcher. *)
Fixpoint uart_frames (uart_buffer : string) (line : list rx)
  : list DeviceMessage * string :=
  match line with
  | [] => ([], uart_buffer)
  | Quiet :: rest => uart_frames uart_buffer rest
  | Rx c :: rest =>
      if Ascii.eqb c Py.NL then
        let (msgs, buf) := uart_frames EmptyString rest in
        (match parse_frame uart_buffer with Some m => [m] | None => [] end ++ msgs, buf)
      else
        let uart_buffer := (uart_buffer ++ String c EmptyString)%string in
        if starts_frame uart_buffer c then
          match rest with
          | Rx next_byte :: rest' =>
              if Ascii.eqb next_byte Py.COLON then
                uart_frames (uart_buffer ++ String next_byte EmptyString)%string rest'
              else
                let (msgs, buf) := uart_frames (String next_byte EmptyString) rest' in
                (Simple (Py.byte_val c) :: msgs, buf)
          | Quiet :: rest' =>
              let (msgs, buf) := uart_frames EmptyString rest' in
              (Simple (Py.byte_val c) :: msgs, buf)
          | [] => ([Simple (Py.byte_val c)], EmptyString)
          end
        else uart_frames uart_buffer rest
  end.

Definition process_data_message (now : Z) (msg_code : Z) (data : string)
  : Pico -> Pico := fun s =>
  if msg_code =? MSG_RFID_READ_SUCCESS then handle_rfid_detected data s
  else if msg_code =? MSG_RFID_READ_FAILED then
    safe_mqtt_publish topic_pub "RFID_READ_FAILED" s
  else if msg_code =? MSG_STATUS_UPDATE then
    safe_mqtt_publish topic_pub ("ARDUINO_STATUS:" ++ data)%string s
  else if msg_code =? MSG_HEARTBEAT then handle_arduino_heartbeat now s
  else s.

Definition dispatch (now : Z) (m : DeviceMessage) : Pico -> Pico :=
  match m with
  | Simple opcode => process_arduino_message now opcode
  | WithData opcode payload => process_data_message now opcode payload
  end.

Definition dispatch_all (now : Z) (msgs : list DeviceMessage) : Pico -> Pico := fun s =>
  fold_left (fun st m => dispatch now m st) msgs s.

Definition uart_poll (now : Z) (line : list rx) : Pico -> Pico := fun s =>
  let (msgs, buf) := uart_frames (uart_buffer s) line in
  set_uart_buffer buf (dispatch_all now msgs s).

(** ** Main loop

    One iteration, with [now] the clock reading of the iteration: Pico
    heartbeat, at most one MQTT message handed to [sub_cb] by [check_msg],
    the three timer checks, the blink driver, the bytes waiting on the UART.
    The MQTT ping and reconnect belong to the transport and are left out. *)
Record loop_input : Type := mkInput {
  mqtt_msg : option (string * string);
  uart_rx : list rx
}.

Definition pico_heartbeat (current_time : Z) : Pico -> Pico := fun s =>
  if pico_heartbeat_interval <? ticks_diff current_time (last_pico_heartbeat s) then
    (send_pico_heartbeat ;; set_last_pico_heartbeat current_time) s
  else s.

Definition safe_mqtt_check (now : Z) (m : option (string * string)) : Pico -> Pico :=
  match m with
  | Some (topic, msg) => sub_cb now topic msg
  | None => skip
  end.

Definition check_timeouts (now : Z) : Pico -> Pico :=
  check_motion_timeout now ;;
  check_alarm_timeout now ;;
  check_arduino_connection now.

Definition main_loop_iteration (now : Z) (inp : loop_input) : Pico -> Pico :=
  pico_heartbeat now ;;
  safe_mqtt_check now (mqtt_msg inp) ;;
  check_timeouts now ;;
  update_led_blink now ;;
  uart_poll now (uart_rx inp).

Definition idle : loop_input := mkInput None [].

Fixpoint main_loop (sched : list (Z * loop_input)) (s : Pico) : Pico :=
  match sched with
  | [] => s
  | (now, inp) :: rest => main_loop rest (main_loop_iteration now inp s)
  end.

(** A command on the command topic and a reply on the auth topic, as one
    loop iteration's input. *)
Definition command (text : string) : loop_input := mkInput (Some (topic_sub, text)) [].
Definition auth_reply (text : string) : loop_input :=
  mkInput (Some (topic_auth_response, text)) [].
Definition received (bytes : string) : loop_input :=
  mkInput None (map Rx (list_ascii_of_string bytes)).

(** ** Vocabulary of the statements *)

(** What a transformer emits, observed from an empty trace, and the bytes it
    puts on the serial line. *)
Definition writes (f : Pico -> Pico) : list effect := trace (f (set_trace [] initial)).
Definition sent (f : Pico -> Pico) : string := wire (writes f).

(** Bytes that arrive back to back. *)
Definition arrivals (bytes : string) : list rx := map Rx (list_ascii_of_string bytes).

(** Each of the later passes of an iteration only appends to the trace. *)
Definition extends (s s' : Pico) : Prop := exists more, trace s' = trace s ++ more.

(** Motion was reported at [t0] and the grace period is running. *)
Definition grace_pending (t0 : Z) (s : Pico) : Prop :=
  current_state s = MOTION_DETECTED /\ motion_start_time s = t0.

Definition is_opcode (c : ascii) : Prop := 1 <= Py.byte_val c <= 28.

(** The round trip as the claim has it. *)
Definition round_trip (cmd : Z) (data : string) : Prop :=
  uart_frames EmptyString (arrivals (sent (send_uart_command_with_data cmd data)))
  = ([WithData cmd data], EmptyString).

(** The two ways the LED is driven while a sequence may be in flight: a poll
    of the driver by the main loop, and a call of [set_led_color] from
    anywhere else. *)
Inductive led_call : Type :=
  | Poll (now : Z)
  | Direct (c : color).

Definition led_step (a : led_call) : Pico -> Pico :=
  match a with
  | Poll now => update_led_blink now
  | Direct c => set_led_color c
  end.

Fixpoint led_run (calls : list led_call) (s : Pico) : Pico :=
  match calls with
  | [] => s
  | a :: rest => led_run rest (led_step a s)
  end.

(** A poll toggles when a sequence is active and the interval has passed. *)
Definition toggle_due (now : Z) (s : Pico) : bool :=
  led_blink_active s && (led_blink_interval <=? ticks_diff now (led_blink_last_time s)).


(** Toggles still to come before the driver is idle again. *)
Definition phases_left (s : Pico) : nat :=
  if led_blink_active s
  then Z.to_nat (Z.max 1 (led_blink_max_count s - led_blink_count s))
  else O.


(** What a motion message publishes. *)
Definition motion_event (opcode : Z) : effect :=
  Publish topic_pub (if opcode =? MSG_MOTION_DETECTED then "MOTION_DETECTED"
                     else "MOTION_STOPPED").

Definition motion_message (opcode : Z) : Prop :=
  opcode = MSG_MOTION_DETECTED \/ opcode = MSG_MOTION_STOPPED.

(** The state with its trace put aside. *)
Definition controller (s : Pico) : Pico := set_trace [] s.

(** No byte of a text is the line terminator. *)
Definition one_line (text : string) : Prop := ~ In Py.NL (list_ascii_of_string text).


(** The variables of the security controller proper, as opposed to the
    heartbeat and blink bookkeeping and the trace. *)
Definition security (s : Pico)
  : SecurityState * Z * Z * option string * bool * Z * bool * string :=
  (current_state s, motion_start_time s, alarm_disabled_time s, current_rfid_secret s,
   manually_activated s, alarm_disable_end_time s, alarm_disable_permanent s,
   uart_buffer s).

(** The test of [check_motion_timeout] and the tests of [check_alarm_timeout]
    under which they act. *)
Definition motion_due (now : Z) (s : Pico) : bool :=
  state_eqb (current_state s) MOTION_DETECTED
  && (motion_grace_period <? ticks_diff now (motion_start_time s)).

Definition deadline_due (now : Z) (s : Pico) : bool :=
  state_eqb (current_state s) ALARM_DISABLED
  && negb (alarm_disable_permanent s)
  && (0 <? alarm_disable_end_time s) && (alarm_disable_end_time s <=? now).

Definition legacy_due (now : Z) (s : Pico) : bool :=
  state_eqb (current_state s) ALARM_DISABLED
  && negb (alarm_disable_permanent s)
  && negb ((0 <? alarm_disable_end_time s) && (alarm_disable_end_time s <=? now))
  && (alarm_disable_end_time s =? 0)
  && (alarm_disable_duration <? ticks_diff now (alarm_disabled_time s)).

Definition timers_quiet (now : Z) (s : Pico) : bool :=
  negb (motion_due now s) && negb (deadline_due now s) && negb (legacy_due now s).

(** Idle iterations at the given clock readings. *)
Definition idle_at (times : list Z) : list (Z * loop_input) :=
  map (fun now => (now, idle)) times.

(** What the decoder can hand to the dispatchers at all. *)
Definition dispatchable (m : DeviceMessage) : Prop :=
  match m with
  | Simple opcode => 1 <= opcode <= 28 /\ opcode <> 10
  | WithData opcode _ => 0 <= opcode < 256 /\ opcode <> 58
  end.

(** Every poll of the list finds a toggle due. *)
Fixpoint all_due (times : list Z) (s : Pico) : bool :=
  match times with
  | [] => true
  | now :: rest => toggle_due now s && all_due rest (update_led_blink now s)
  end.

(** The LED frames of the toggles still to come: the colours alternate, and
    the last toggle is always LED off. *)
Fixpoint blink_writes (c : color) (is_on : bool) (left : nat) : list effect :=
  match left with
  | O => []
  | S O => writes (set_led_color LED_OFF)
  | S left' =>
      writes (set_led_color (if is_on then LED_OFF else c))
        ++ blink_writes c (negb is_on) left'
  end.

(** The disable mode is not permanent and timed at once. *)
Definition mode_ok (s : Pico) : Prop :=
  alarm_disable_permanent s = true -> alarm_disable_end_time s = 0.

(** The legacy entry point of the RFID write, kept by the script. *)
Definition enter_rfid_write_mode (secret_key : string) : Pico -> Pico :=
  prepare_rfid_write_mode secret_key.

(** The bytes of a frame with data, as [send_uart_command_with_data] writes
    them. *)
Definition frame_bytes (code : ascii) (data : string) : string :=
  String code (String Py.COLON (data ++ String Py.NL EmptyString)).

(** The alarm is active and was raised by command. *)
Definition manually_armed (s : Pico) : Prop :=
  current_state s = ALARM_ACTIVE /\ manually_activated s = true.

(** An iteration that brings nothing from the device and, from the broker,
    at most a message on the auth-response topic. *)
Definition auth_or_idle (step : Z * loop_input) : Prop :=
  uart_rx (snd step) = []
  /\ (mqtt_msg (snd step) = None
      \/ exists msg, mqtt_msg (snd step) = Some (topic_auth_response, msg)).

(** Text made of decimal digits only, and the number it writes. *)
Definition is_digit (c : ascii) : bool :=
  (48 <=? Py.byte_val c) && (Py.byte_val c <=? 57).

Definition all_digits (text : string) : bool :=
  forallb is_digit (list_ascii_of_string text).

Fixpoint decimal_value_from (acc : Z) (text : string) : Z :=
  match text with
  | EmptyString => acc
  | String c rest => decimal_value_from (10 * acc + (Py.byte_val c - 48)) rest
  end.

Definition decimal_value (text : string) : Z := decimal_value_from 0 text.

(** The stored secret after the dispatch of some messages: a read-success
    message puts its payload in place, no other message touches it. *)
Definition read_key (m : DeviceMessage) (secret : option string) : option string :=
  match m with
  | WithData opcode payload =>
      if opcode =? MSG_RFID_READ_SUCCESS then Some payload else secret
  | Simple _ => secret
  end.

Definition secret_after (msgs : list DeviceMessage) (secret : option string)
  : option string :=
  fold_left (fun sec m => read_key m sec) msgs secret.

(** ** Proof automation *)

Ltac branches :=
  repeat match goal with
         | |- context [if ?b then _ else _] => destruct b eqn:?; cbn
         end.

Ltac unfold_iteration :=
  unfold main_loop_iteration, check_timeouts, idle, received, command, auth_reply,
    safe_mqtt_check, seq, skip;
  cbn [mqtt_msg uart_rx].

(** Runs the program text: unfolds the functions of the script and the
    record operations, and nothing of the data they handle. *)
Ltac run_program :=
  lazy [
    seq skip state_eqb emit safe_mqtt_publish send_uart_command
    send_uart_command_with_data set_led_color start_led_blink update_led_blink
    handle_motion_detected handle_motion_stopped activate_alarm check_motion_timeout
    handle_rfid_detected handle_auth_success handle_auth_failed disable_alarm
    activate_alarm_manual disable_alarm_permanent disable_alarm_timed enable_alarm
    reset_alarm handle_button_pressed prepare_rfid_write_mode confirm_rfid_write_mode
    initialize_rfid_write abort_operation check_alarm_timeout
    handle_arduino_heartbeat handle_arduino_status_update check_arduino_connection
    send_pico_heartbeat process_arduino_message sub_cb process_data_message dispatch
    dispatch_all uart_poll pico_heartbeat safe_mqtt_check check_timeouts
    main_loop_iteration writes sent set_current_state set_motion_start_time
    set_alarm_disabled_time set_current_rfid_secret set_manually_activated
    set_alarm_disable_end_time set_alarm_disable_permanent set_last_arduino_heartbeat
    set_arduino_connected set_led_blink_active set_led_blink_count
    set_led_blink_max_count set_led_blink_last_time set_led_blink_is_on
    set_led_blink_color set_last_pico_heartbeat set_uart_buffer set_trace
    current_state motion_start_time alarm_disabled_time current_rfid_secret
    manually_activated alarm_disable_end_time alarm_disable_permanent
    last_arduino_heartbeat arduino_connected led_blink_active led_blink_count
    led_blink_max_count led_blink_last_time led_blink_is_on led_blink_color
    last_pico_heartbeat uart_buffer trace ].

Ltac same_trace := run_program; rewrite <- ?app_assoc; cbn [app]; reflexivity.

(** * Properties *)

(** ** Clock arithmetic *)

Lemma TICKS_HALF_value : TICKS_HALF = 536870912.
Proof. reflexivity. Qed.

Lemma ticks_diff_add (t d : Z) :
  0 <= t < TICKS_PERIOD -> - TICKS_HALF <= d < TICKS_HALF ->
  ticks_diff (ticks_add t d) t = d.
Proof.
  unfold ticks_diff, ticks_add, TICKS_HALF, TICKS_PERIOD.
  change (2 ^ 30) with 1073741824. change (1073741824 / 2) with 536870912.
  intros Ht Hd.
  replace ((t + d) mod 1073741824 - t + 536870912)
    with ((t + d) mod 1073741824 + (536870912 - t)) by lia.
  rewrite Zplus_mod_idemp_l.
  replace (t + d + (536870912 - t)) with (d + 536870912) by lia.
  rewrite Z.mod_small; lia.
Qed.

(** ** What the housekeeping passes of an iteration leave alone *)

Section Frames.
Variables (now : Z) (s : Pico).

Lemma pico_heartbeat_security :
  current_state (pico_heartbeat now s) = current_state s
  /\ motion_start_time (pico_heartbeat now s) = motion_start_time s
  /\ manually_activated (pico_heartbeat now s) = manually_activated s
  /\ uart_buffer (pico_heartbeat now s) = uart_buffer s.
Proof. unfold pico_heartbeat; branches; auto. Qed.

Lemma check_arduino_connection_security :
  current_state (check_arduino_connection now s) = current_state s
  /\ motion_start_time (check_arduino_connection now s) = motion_start_time s
  /\ manually_activated (check_arduino_connection now s) = manually_activated s
  /\ uart_buffer (check_arduino_connection now s) = uart_buffer s.
Proof. unfold check_arduino_connection; branches; auto. Qed.

Lemma update_led_blink_security :
  current_state (update_led_blink now s) = current_state s
  /\ motion_start_time (update_led_blink now s) = motion_start_time s
  /\ manually_activated (update_led_blink now s) = manually_activated s
  /\ uart_buffer (update_led_blink now s) = uart_buffer s.
Proof. unfold update_led_blink; branches; auto. Qed.

Lemma check_alarm_timeout_elsewhere :
  current_state s <> ALARM_DISABLED -> check_alarm_timeout now s = s.
Proof.
  unfold check_alarm_timeout. destruct (current_state s); cbn; congruence.
Qed.
End Frames.

Lemma extends_refl s : extends s s.
Proof. exists []. now rewrite app_nil_r. Qed.

Lemma extends_trans s1 s2 s3 : extends s1 s2 -> extends s2 s3 -> extends s1 s3.
Proof.
  intros [a Ha] [b Hb]. exists (a ++ b). now rewrite Hb, Ha, app_assoc.
Qed.

Ltac trace_suffix :=
  first [ apply extends_refl
        | unfold extends; cbn; eexists; rewrite <- ?app_assoc; reflexivity ].

Lemma pico_heartbeat_extends now s : extends s (pico_heartbeat now s).
Proof. unfold pico_heartbeat; branches; trace_suffix. Qed.

Lemma check_arduino_connection_extends now s : extends s (check_arduino_connection now s).
Proof. unfold check_arduino_connection; branches; trace_suffix. Qed.

Lemma update_led_blink_extends now s : extends s (update_led_blink now s).
Proof. unfold update_led_blink; branches; trace_suffix. Qed.

Lemma main_loop_cons now inp sched s :
  main_loop ((now, inp) :: sched) s = main_loop sched (main_loop_iteration now inp s).
Proof. reflexivity. Qed.

(** ** Motion grace period *)

Section MotionGrace.
Variable t0 : Z.

(** The passes that follow the motion check leave the controller alone
    outside [ALARM_DISABLED]. *)
Lemma later_passes now s :
  current_state s <> ALARM_DISABLED ->
  let s' := (check_alarm_timeout now ;; check_arduino_connection now ;;
             update_led_blink now ;; uart_poll now []) s in
  current_state s' = current_state s
  /\ motion_start_time s' = motion_start_time s
  /\ manually_activated s' = manually_activated s
  /\ uart_buffer s' = uart_buffer s
  /\ extends s s'.
Proof.
  intros Hst. unfold seq. rewrite (check_alarm_timeout_elsewhere now s Hst).
  destruct (check_arduino_connection_security now s) as (c1 & c2 & c3 & c4).
  pose proof (check_arduino_connection_extends now s) as c5.
  set (s1 := check_arduino_connection now s) in *.
  destruct (update_led_blink_security now s1) as (u1 & u2 & u3 & u4).
  pose proof (update_led_blink_extends now s1) as u5.
  set (s2 := update_led_blink now s1) in *.
  cbn. unfold uart_poll, dispatch_all; cbn.
  repeat split; try congruence.
  eapply extends_trans; [exact c5|]. eapply extends_trans; [exact u5|].
  trace_suffix.
Qed.

Lemma idle_iteration_keeps_grace now s :
  ticks_diff now t0 <= motion_grace_period ->
  grace_pending t0 s -> grace_pending t0 (main_loop_iteration now idle s).
Proof.
  intros Hd [Hs Hm]. unfold_iteration.
  destruct (pico_heartbeat_security now s) as (p1 & p2 & p3 & p4).
  set (s1 := pico_heartbeat now s) in *.
  assert (Hc : check_motion_timeout now s1 = s1).
  { unfold check_motion_timeout. rewrite p1, Hs, p2, Hm; cbn.
    destruct (motion_grace_period <? ticks_diff now t0) eqn:E; [|reflexivity].
    apply Z.ltb_lt in E. lia. }
  rewrite Hc.
  destruct (later_passes now s1) as (l1 & l2 & _); [rewrite p1, Hs; discriminate|].
  unfold seq in l1, l2. split; congruence.
Qed.

Lemma idle_iterations_keep_grace (polls : list Z) s :
  Forall (fun now => ticks_diff now t0 <= motion_grace_period) polls ->
  grace_pending t0 s ->
  grace_pending t0 (main_loop (map (fun now => (now, idle)) polls) s).
Proof.
  intros Hall. revert s.
  induction Hall as [|now polls Hnow _ IH]; intros s Hs; cbn [map];
    [exact Hs|].
  rewrite main_loop_cons. apply IH, idle_iteration_keeps_grace; assumption.
Qed.

(** The motion byte, alone on the line, starts the grace period. *)
Lemma motion_byte_starts_grace s :
  current_state s = READY -> uart_buffer s = EmptyString ->
  grace_pending t0
    (main_loop_iteration t0 (received (Py.bytes1 MSG_MOTION_DETECTED)) s).
Proof.
  intros Hs Hb. unfold_iteration.
  destruct (pico_heartbeat_security t0 s) as (p1 & p2 & p3 & p4).
  set (s1 := pico_heartbeat t0 s) in *.
  assert (Hc : check_motion_timeout t0 s1 = s1).
  { unfold check_motion_timeout. now rewrite p1, Hs. }
  rewrite Hc, (check_alarm_timeout_elsewhere t0 s1) by (rewrite p1, Hs; discriminate).
  destruct (check_arduino_connection_security t0 s1) as (c1 & c2 & c3 & c4).
  set (s2 := check_arduino_connection t0 s1) in *.
  destruct (update_led_blink_security t0 s2) as (u1 & u2 & u3 & u4).
  set (s3 := update_led_blink t0 s2) in *.
  assert (H3 : current_state s3 = READY) by congruence.
  assert (B3 : uart_buffer s3 = EmptyString) by congruence.
  unfold uart_poll. rewrite B3. cbn.
  unfold process_arduino_message, handle_motion_detected; cbn.
  rewrite H3; cbn. split; reflexivity.
Qed.

(** The first motion check after the grace period raises the alarm. *)
Lemma grace_expiry_raises_alarm now s :
  motion_grace_period < ticks_diff now t0 ->
  grace_pending t0 s ->
  let s' := main_loop_iteration now idle s in
  current_state s' = ALARM_ACTIVE /\ manually_activated s' = false
  /\ exists before after,
       trace s' = before
                  ++ [UartWrite (Py.bytes1 CMD_SET_BUZZER_ON)]
                  ++ writes (set_led_color LED_RED)
                  ++ [Publish topic_pub "ALARM_TRIGGERED"]
                  ++ after
       /\ extends s (set_trace before s).
Proof.
  intros Hd [Hs Hm]. unfold_iteration.
  destruct (pico_heartbeat_security now s) as (p1 & p2 & p3 & p4).
  destruct (pico_heartbeat_extends now s) as [pre Hpre].
  set (s1 := pico_heartbeat now s) in *.
  assert (Hc : check_motion_timeout now s1 = activate_alarm s1).
  { unfold check_motion_timeout. rewrite p1, Hs, p2, Hm; cbn.
    apply Z.ltb_lt in Hd. now rewrite Hd. }
  rewrite Hc.
  assert (Ha : current_state (activate_alarm s1) = ALARM_ACTIVE
               /\ manually_activated (activate_alarm s1) = false
               /\ trace (activate_alarm s1)
                  = (trace s ++ pre)
                      ++ [UartWrite (Py.bytes1 CMD_SET_BUZZER_ON)]
                      ++ writes (set_led_color LED_RED)
                      ++ [Publish topic_pub "ALARM_TRIGGERED"]).
  { unfold activate_alarm. rewrite p1, Hs; cbn. rewrite Hpre.
    repeat split. rewrite <- !app_assoc. reflexivity. }
  destruct Ha as (a1 & a2 & a3).
  set (s2 := activate_alarm s1) in *.
  destruct (later_passes now s2) as (l1 & l2 & l3 & l4 & [post Hpost]);
    [rewrite a1; discriminate|].
  unfold seq in *. cbv zeta in *.
  split; [congruence|]. split; [congruence|].
  exists (trace s ++ pre), post. split.
  - rewrite Hpost, a3. now rewrite <- !app_assoc.
  - now exists pre.
Qed.
End MotionGrace.

(** C9: from a state in [READY] with an empty receive buffer, the motion
    byte read at [t0], any number of idle loop iterations within the 5 s
    grace period (no motion-stopped byte, no command), and then an idle
    iteration once more than 5 s have passed (6 s in particular) leave the
    controller in [ALARM_ACTIVE] with [manually_activated] false; that last
    iteration writes the buzzer-on command byte [CMD_SET_BUZZER_ON], sets the
    LED red and publishes [ALARM_TRIGGERED] on the events topic. *)
Theorem motion_then_six_seconds_raises_alarm :
  forall (s : Pico) (t0 elapsed : Z) (polls : list Z),
    current_state s = READY ->
    uart_buffer s = EmptyString ->
    0 <= t0 < TICKS_PERIOD ->
    Forall (fun d => 0 <= d <= motion_grace_period) polls ->
    motion_grace_period < elapsed < TICKS_HALF ->
    let waiting :=
      main_loop ((t0, received (Py.bytes1 MSG_MOTION_DETECTED))
                   :: map (fun now => (now, idle)) (map (ticks_add t0) polls)) s in
    let s' := main_loop_iteration (ticks_add t0 elapsed) idle waiting in
    current_state s' = ALARM_ACTIVE
    /\ manually_activated s' = false
    /\ exists before after,
         trace s' = before
                    ++ [UartWrite (Py.bytes1 CMD_SET_BUZZER_ON)]
                    ++ writes (set_led_color LED_RED)
                    ++ [Publish topic_pub "ALARM_TRIGGERED"]
                    ++ after
         /\ extends waiting (set_trace before waiting).
Proof.
  intros s t0 elapsed polls Hs Hb Ht Hpolls He waiting s'.
  assert (Hw : grace_pending t0 waiting).
  { subst waiting. rewrite main_loop_cons.
    apply idle_iterations_keep_grace.
    - rewrite Forall_map. eapply Forall_impl; [|exact Hpolls].
      intros d Hd; cbv beta. pose proof TICKS_HALF_value.
      unfold motion_grace_period in *. rewrite ticks_diff_add; lia.
    - now apply motion_byte_starts_grace. }
  assert (Hx : motion_grace_period < ticks_diff (ticks_add t0 elapsed) t0).
  { pose proof TICKS_HALF_value.
    unfold motion_grace_period in *. rewrite ticks_diff_add; lia. }
  destruct (grace_expiry_raises_alarm t0 (ticks_add t0 elapsed) waiting Hx Hw)
    as (r1 & r2 & before & after & r3 & r4).
  split; [exact r1|]. split; [exact r2|].
  exists before, after. split; [exact r3|exact r4].
Qed.

Lemma motion_then_six_seconds_raises_alarm_witness :
  let s' :=
    main_loop [(100, received (Py.bytes1 MSG_MOTION_DETECTED));
               (1100, idle); (5100, idle); (6100, idle)] initial in
  current_state s' = ALARM_ACTIVE /\ manually_activated s' = false.
Proof.
  destruct (motion_then_six_seconds_raises_alarm initial 100 6000 [1000; 5000])
    as (H1 & H2 & _).
  - reflexivity.
  - reflexivity.
  - split; [discriminate | reflexivity].
  - repeat constructor; discriminate.
  - split; reflexivity.
  - split; [exact H1 | exact H2].
Defined.

(** ** Authentication while the alarm is manually armed *)

(** C6: with [manually_activated] set and the controller in [ALARM_ACTIVE],
    an [AUTH_SUCCESS] reply on the auth-response topic changes nothing in
    the state but the trace, to which it appends exactly the acknowledgement
    on the auth topic and [AUTH_SUCCESS_BLOCKED] on the events topic: the
    controller stays in [ALARM_ACTIVE], stays manually armed, and no byte
    (hence no buzzer-off command) goes to the device. *)
Theorem auth_success_blocked_while_manually_armed :
  forall (now : Z) (s : Pico),
    manually_activated s = true ->
    current_state s = ALARM_ACTIVE ->
    let s' := sub_cb now topic_auth_response "AUTH_SUCCESS" s in
    s' = set_trace (trace s ++ [Publish topic_auth_request "ACK_AUTH_SUCCESS";
                                Publish topic_pub "AUTH_SUCCESS_BLOCKED"]) s
    /\ current_state s' = ALARM_ACTIVE
    /\ manually_activated s' = true
    /\ In (Publish topic_pub "AUTH_SUCCESS_BLOCKED") (trace s')
    /\ (forall b, In (UartWrite b) (trace s') -> In (UartWrite b) (trace s)).
Proof.
  intros now s Hm Hs s'.
  assert (E : s' = set_trace (trace s ++ [Publish topic_auth_request "ACK_AUTH_SUCCESS";
                                           Publish topic_pub "AUTH_SUCCESS_BLOCKED"]) s).
  { subst s'. unfold sub_cb. cbn. unfold handle_auth_success.
    rewrite Hm, Hs. cbn.
    unfold seq, safe_mqtt_publish, emit, set_trace. cbn.
    rewrite <- app_assoc. reflexivity. }
  rewrite E. cbn. repeat split; auto.
  - apply in_or_app. right. right. now left.
  - intros b Hb. apply in_app_or in Hb. destruct Hb as [Hb|Hb]; [exact Hb|].
    cbn in Hb. destruct Hb as [Hb|[Hb|[]]]; discriminate.
Qed.

Lemma auth_success_blocked_while_manually_armed_witness :
  let armed := sub_cb 0 topic_sub "CMD_ACTIVATE_ALARM" initial in
  let s' := sub_cb 1 topic_auth_response "AUTH_SUCCESS" armed in
  current_state s' = ALARM_ACTIVE /\ manually_activated s' = true.
Proof.
  destruct (auth_success_blocked_while_manually_armed 1
              (sub_cb 0 topic_sub "CMD_ACTIVATE_ALARM" initial))
    as (_ & H1 & H2 & _).
  - reflexivity.
  - reflexivity.
  - split; [exact H1 | exact H2].
Defined.

(** ** The legacy 60 s re-arm *)

(** The check in terms of its own guard: in [ALARM_DISABLED] with the
    permanent flag clear and no deadline, it re-arms when [ticks_diff] of the
    clock and the stored [alarm_disabled_time] exceeds 60 000 ms and does
    nothing otherwise; [disable_alarm] does not write [alarm_disabled_time]. *)
Theorem legacy_timeout_rearms_plain_disable :
  forall (now : Z) (s : Pico),
    alarm_disable_permanent s = false ->
    alarm_disable_end_time s = 0 ->
    (current_state s = ALARM_DISABLED ->
     alarm_disable_duration < ticks_diff now (alarm_disabled_time s) ->
     let s' := check_alarm_timeout now s in
     current_state s' = READY
     /\ trace s' = trace s ++ writes (set_led_color LED_OFF)
                           ++ [Publish topic_pub "ALARM_REARMED"])
    /\ (current_state s = ALARM_DISABLED ->
        ticks_diff now (alarm_disabled_time s) <= alarm_disable_duration ->
        check_alarm_timeout now s = s)
    /\ alarm_disabled_time (disable_alarm s) = alarm_disabled_time s
    /\ (alarm_disable_duration < ticks_diff now (alarm_disabled_time s) ->
        let s' := check_alarm_timeout now (disable_alarm s) in
        current_state s' = READY
        /\ trace s' = trace (disable_alarm s) ++ writes (set_led_color LED_OFF)
                        ++ [Publish topic_pub "ALARM_REARMED"]).
Proof.
  intros now s Hp He.
  assert (fire : forall st,
             current_state st = ALARM_DISABLED ->
             alarm_disable_permanent st = false ->
             alarm_disable_end_time st = 0 ->
             alarm_disable_duration < ticks_diff now (alarm_disabled_time st) ->
             current_state (check_alarm_timeout now st) = READY
             /\ trace (check_alarm_timeout now st)
                = trace st ++ writes (set_led_color LED_OFF)
                    ++ [Publish topic_pub "ALARM_REARMED"]).
  { intros st Hs Hp' He' Hd. unfold check_alarm_timeout.
    rewrite Hs, Hp', He'. cbn. apply Z.ltb_lt in Hd. rewrite Hd. cbn.
    split; [reflexivity|]. rewrite <- !app_assoc. reflexivity. }
  split; [|split; [|split]].
  - intros Hs Hd. now apply fire.
  - intros Hs Hd. unfold check_alarm_timeout. rewrite Hs, Hp, He. cbn.
    apply Z.ltb_ge in Hd. now rewrite Hd.
  - reflexivity.
  - intros Hd. now apply fire.
Qed.

(** Beyond half the period the signed difference is negative. *)
Lemma ticks_diff_far (t d : Z) :
  0 <= t < TICKS_PERIOD -> TICKS_HALF <= d < TICKS_PERIOD ->
  ticks_diff (ticks_add t d) t = d - TICKS_PERIOD.
Proof.
  intros Ht Hd. pose proof TICKS_HALF_value as HH.
  assert (P : TICKS_PERIOD = 1073741824) by reflexivity.
  replace (ticks_add t d) with (ticks_add t (d - TICKS_PERIOD)).
  - apply ticks_diff_add; lia.
  - unfold ticks_add.
    replace (t + d) with (t + (d - TICKS_PERIOD) + 1 * TICKS_PERIOD) by lia.
    now rewrite Z_mod_plus_full.
Qed.

(** C10, as stated, fails: after a week of uptime the stored
    [alarm_disabled_time] is still 0, so far more than 60 s have elapsed, yet a
    plain [CMD_DISABLE_ALARM] is not re-armed 61 s, an hour or a day later:
    beyond half the tick period [ticks_diff] is negative. *)
Lemma plain_disable_after_a_week_is_not_rearmed :
  let s := main_loop [(604800000, command "CMD_DISABLE_ALARM")] initial in
  current_state s = ALARM_DISABLED
  /\ alarm_disable_permanent s = false
  /\ alarm_disable_end_time s = 0
  /\ alarm_disabled_time s = 0
  /\ alarm_disable_duration < 604861000 - alarm_disabled_time s
  /\ check_alarm_timeout 604861000 s = s
  /\ current_state
       (main_loop [(604861000, idle); (608400000, idle); (691200000, idle)] s)
     = ALARM_DISABLED.
Proof. vm_compute. repeat split. Qed.

(** C10 (amended): in [ALARM_DISABLED] with the permanent flag clear and no
    deadline, the timer check returns the controller to [READY], switches the
    LED off and publishes [ALARM_REARMED] when the time elapsed since the
    stored [alarm_disabled_time], within one tick period, is more than 60 s
    and less than half the period (2^29 ms); at 60 s or less, and from half
    the period on, it does nothing.  [disable_alarm] does not write
    [alarm_disabled_time], so after a plain disable command the same window,
    counted from the old stored time, decides whether the controller is
    re-armed. *)
Theorem legacy_rearm_window :
  forall (elapsed : Z) (s : Pico),
    alarm_disable_permanent s = false ->
    alarm_disable_end_time s = 0 ->
    0 <= alarm_disabled_time s < TICKS_PERIOD ->
    0 <= elapsed < TICKS_PERIOD ->
    let now := ticks_add (alarm_disabled_time s) elapsed in
    (current_state s = ALARM_DISABLED ->
     (alarm_disable_duration < elapsed < TICKS_HALF ->
      current_state (check_alarm_timeout now s) = READY
      /\ trace (check_alarm_timeout now s)
         = trace s ++ writes (set_led_color LED_OFF)
             ++ [Publish topic_pub "ALARM_REARMED"])
     /\ (elapsed <= alarm_disable_duration \/ TICKS_HALF <= elapsed ->
         check_alarm_timeout now s = s))
    /\ alarm_disabled_time (disable_alarm s) = alarm_disabled_time s
    /\ (alarm_disable_duration < elapsed < TICKS_HALF ->
        current_state (check_alarm_timeout now (disable_alarm s)) = READY
        /\ trace (check_alarm_timeout now (disable_alarm s))
           = trace (disable_alarm s) ++ writes (set_led_color LED_OFF)
               ++ [Publish topic_pub "ALARM_REARMED"])
    /\ (elapsed <= alarm_disable_duration \/ TICKS_HALF <= elapsed ->
        check_alarm_timeout now (disable_alarm s) = disable_alarm s).
Proof.
  intros elapsed s Hp He Ht Hel now.
  pose proof TICKS_HALF_value as HH.
  assert (P : TICKS_PERIOD = 1073741824) by reflexivity.
  assert (inside : alarm_disable_duration < elapsed < TICKS_HALF ->
                   alarm_disable_duration < ticks_diff now (alarm_disabled_time s)).
  { intros Hw. subst now. rewrite ticks_diff_add; lia. }
  assert (outside : elapsed <= alarm_disable_duration \/ TICKS_HALF <= elapsed ->
                    ticks_diff now (alarm_disabled_time s) <= alarm_disable_duration).
  { unfold alarm_disable_duration. intros [Hw|Hw]; subst now.
    - rewrite ticks_diff_add; lia.
    - rewrite ticks_diff_far; lia. }
  destruct (legacy_timeout_rearms_plain_disable now s Hp He) as (F1 & Q1 & K & F2).
  destruct (legacy_timeout_rearms_plain_disable now (disable_alarm s) Hp He)
    as (_ & Q2 & _).
  split; [|split; [exact K|split]].
  - intros Hs. split.
    + intros Hw. exact (F1 Hs (inside Hw)).
    + intros Hw. exact (Q1 Hs (outside Hw)).
  - intros Hw. exact (F2 (inside Hw)).
  - intros Hw. apply Q2; [reflexivity|]. apply outside, Hw.
Qed.

Lemma legacy_rearm_window_witness :
  current_state (check_alarm_timeout 60001 (disable_alarm initial)) = READY
  /\ check_alarm_timeout 60000 (disable_alarm initial) = disable_alarm initial
  /\ check_alarm_timeout 604861000 (disable_alarm initial) = disable_alarm initial.
Proof.
  destruct (legacy_rearm_window 60001 initial) as (_ & _ & Hin & _);
    [reflexivity | reflexivity | split; [discriminate | reflexivity]
    | split; [discriminate | reflexivity] |].
  destruct (legacy_rearm_window 60000 initial) as (_ & _ & _ & Hlow);
    [reflexivity | reflexivity | split; [discriminate | reflexivity]
    | split; [discriminate | reflexivity] |].
  destruct (legacy_rearm_window 604861000 initial) as (_ & _ & _ & Hfar);
    [reflexivity | reflexivity | split; [discriminate | reflexivity]
    | split; [discriminate | reflexivity] |].
  split; [|split].
  - apply Hin. split; reflexivity.
  - apply Hlow. left. discriminate.
  - apply Hfar. right. discriminate.
Defined.

(** ** What [disable_alarm] and [abort_operation] leave behind *)

(** Both functions write [current_state] and nothing else of the controller. *)
Lemma disable_alarm_writes_state_only (s : Pico) :
  disable_alarm s
  = set_trace (trace s ++ [UartWrite (Py.bytes1 CMD_SET_BUZZER_OFF)]
                 ++ writes (set_led_color LED_GREEN)
                 ++ [Publish topic_pub "ACK_CMD_DISABLE_ALARM"])
      (set_current_state ALARM_DISABLED s).
Proof.
  transitivity (set_trace (trace (disable_alarm s)) (set_current_state ALARM_DISABLED s));
    [reflexivity|].
  f_equal. same_trace.
Qed.

Lemma abort_operation_writes_state_only (s : Pico) :
  abort_operation s
  = set_trace (trace s ++ [UartWrite (Py.bytes1 CMD_RFID_NORMAL_MODE)]
                 ++ writes (set_led_color LED_OFF)
                 ++ [Publish topic_pub "ACK_CMD_ABORT"])
      (set_current_state READY s).
Proof.
  transitivity (set_trace (trace (abort_operation s)) (set_current_state READY s));
    [reflexivity|].
  f_equal. same_trace.
Qed.

(** C1 (the code departs from the claim): [disable_alarm] and
    [abort_operation] never write [manually_activated].  After
    [CMD_ACTIVATE_ALARM], the command [CMD_DISABLE_ALARM] leaves the
    controller in [ALARM_DISABLED] and [CMD_ABORT] leaves it in [READY], in
    both cases with [manually_activated] still true.  The same holds for
    [prepare_rfid_write_mode]. *)
Theorem manual_flag_survives_disable_and_abort :
  (forall s, manually_activated (disable_alarm s) = manually_activated s)
  /\ (forall s, manually_activated (abort_operation s) = manually_activated s)
  /\ (forall key s,
        manually_activated (prepare_rfid_write_mode key s) = manually_activated s)
  /\ (let armed := main_loop [(0, command "CMD_ACTIVATE_ALARM")] initial in
      current_state armed = ALARM_ACTIVE /\ manually_activated armed = true
      /\ (let s := main_loop_iteration 1 (command "CMD_DISABLE_ALARM") armed in
          current_state s = ALARM_DISABLED /\ manually_activated s = true)
      /\ (let s := main_loop_iteration 1 (command "CMD_ABORT") armed in
          current_state s = READY /\ manually_activated s = true)).
Proof.
  split; [reflexivity|]. split; [reflexivity|]. split; [reflexivity|].
  vm_compute. repeat split.
Qed.

(** C8 (the code departs from the claim): [disable_alarm] switches the buzzer
    off, sets the LED green, publishes the acknowledgement and enters
    [ALARM_DISABLED], but it writes neither [alarm_disable_permanent] nor
    [alarm_disable_end_time]; [abort_operation] leaves [ALARM_DISABLED]
    without resetting them either.  After [CMD_DISABLE_ALARM_PERMANENT] and
    [CMD_ABORT] the controller is in [READY], and [CMD_DISABLE_ALARM] then
    enters [ALARM_DISABLED] with the permanent flag set instead of no mode. *)
Theorem plain_disable_keeps_stale_mode :
  (forall s, current_state (disable_alarm s) = ALARM_DISABLED
             /\ alarm_disable_permanent (disable_alarm s) = alarm_disable_permanent s
             /\ alarm_disable_end_time (disable_alarm s) = alarm_disable_end_time s
             /\ trace (disable_alarm s)
                = trace s ++ [UartWrite (Py.bytes1 CMD_SET_BUZZER_OFF)]
                    ++ writes (set_led_color LED_GREEN)
                    ++ [Publish topic_pub "ACK_CMD_DISABLE_ALARM"])
  /\ (forall s, current_state (abort_operation s) = READY
                /\ alarm_disable_permanent (abort_operation s) = alarm_disable_permanent s
                /\ alarm_disable_end_time (abort_operation s) = alarm_disable_end_time s)
  /\ (let ready := main_loop [(0, command "CMD_DISABLE_ALARM_PERMANENT");
                              (1, command "CMD_ABORT")] initial in
      current_state ready = READY
      /\ (let s := main_loop_iteration 2 (command "CMD_DISABLE_ALARM") ready in
          current_state s = ALARM_DISABLED /\ alarm_disable_permanent s = true)).
Proof.
  split; [|split].
  - intros s. rewrite disable_alarm_writes_state_only. repeat split.
  - intros s. rewrite abort_operation_writes_state_only. repeat split.
  - vm_compute. repeat split.
Qed.

(** ** The timed disable command *)

(** What [disable_alarm_timed] does once it is called: the deadline is the
    clock reading plus [minutes] minutes, and the first timer check at or
    after the deadline runs [enable_alarm]. *)
Lemma disable_alarm_timed_expires (now later minutes : Z) (s : Pico) :
  0 < now + minutes * 60 * 1000 <= later ->
  let s1 := disable_alarm_timed now minutes s in
  current_state s1 = ALARM_DISABLED
  /\ alarm_disable_permanent s1 = false
  /\ alarm_disable_end_time s1 = now + minutes * 60 * 1000
  /\ check_alarm_timeout later s1 = enable_alarm s1.
Proof.
  intros H s1. repeat split.
  unfold check_alarm_timeout. cbn.
  destruct (Z.ltb_spec 0 (now + minutes * 60 * 1000)); [|lia].
  destruct (Z.leb_spec (now + minutes * 60 * 1000) later); [|lia].
  reflexivity.
Qed.

(** C2 (the code departs from the claim): [sub_cb] takes the minutes from
    [msg_str[25:]], but the prefix ["CMD_DISABLE_ALARM_TIMED:"] is 24
    characters long, so the first character of the minute count is dropped.
    With a one-digit count nothing is left, [int] fails, and the command is
    ignored: [CMD_DISABLE_ALARM_TIMED:1] never enters [ALARM_DISABLED] and
    emits nothing.  With ["15"] the controller is disabled for 5 minutes. *)
Theorem timed_disable_drops_first_digit :
  String.length "CMD_DISABLE_ALARM_TIMED:" = 24%nat
  /\ (forall now s, sub_cb now topic_sub "CMD_DISABLE_ALARM_TIMED:1" s = s)
  /\ (forall now,
        main_loop [(now, command "CMD_DISABLE_ALARM_TIMED:1")] initial
        = pico_heartbeat now initial)
  /\ (forall now s, sub_cb now topic_sub "CMD_DISABLE_ALARM_TIMED:15" s
                    = disable_alarm_timed now 5 s).
Proof.
  split; [reflexivity|]. split; [reflexivity|]. split; [|reflexivity].
  intros now. rewrite main_loop_cons. cbn [main_loop]. unfold_iteration.
  change (sub_cb now topic_sub "CMD_DISABLE_ALARM_TIMED:1" (pico_heartbeat now initial))
    with (pico_heartbeat now initial).
  set (s1 := pico_heartbeat now initial).
  assert (Hs : current_state s1 = READY)
    by (apply (pico_heartbeat_security now initial)).
  assert (Hb : uart_buffer s1 = EmptyString)
    by (apply (pico_heartbeat_security now initial)).
  assert (Hm : check_motion_timeout now s1 = s1)
    by (unfold check_motion_timeout; now rewrite Hs).
  rewrite Hm, (check_alarm_timeout_elsewhere now s1) by (rewrite Hs; discriminate).
  assert (Ha : check_arduino_connection now s1 = s1).
  { unfold check_arduino_connection.
    replace (arduino_connected s1) with false; [reflexivity|].
    subst s1. unfold pico_heartbeat. branches; reflexivity. }
  rewrite Ha.
  assert (Hl : update_led_blink now s1 = s1).
  { unfold update_led_blink.
    replace (led_blink_active s1) with false; [reflexivity|].
    subst s1. unfold pico_heartbeat. branches; reflexivity. }
  rewrite Hl. unfold uart_poll. cbn. reflexivity.
Qed.

(** ** The write-completed message *)

(** C5 (the code departs from the claim): in [process_arduino_message] the
    assignment of [READY] goes to a local name, so the call publishes the
    status event and switches the LED off but leaves [current_state] as it
    was.  Moreover the opcode 10 is the byte ['\n']: the main loop takes it
    for a frame terminator and never hands it to [process_arduino_message],
    so from [RFID_WRITE_MODE] the byte changes neither state nor trace. *)
Theorem write_completed_does_not_leave_write_mode :
  (forall now s,
      process_arduino_message now MSG_RFID_WRITE_COMPLETED s
      = set_trace (trace s ++ [Publish topic_pub "STATUS_RFID_WRITE_COMPLETED"]
                     ++ writes (set_led_color LED_OFF)) s)
  /\ (forall now s,
        current_state (process_arduino_message now MSG_RFID_WRITE_COMPLETED s)
        = current_state s)
  /\ uart_frames EmptyString (arrivals (Py.bytes1 MSG_RFID_WRITE_COMPLETED))
     = ([], EmptyString)
  /\ (let writing := main_loop [(0, command "CMD_RFID_WRITE_PREPARE:k")] initial in
      let s := main_loop_iteration 1
                 (received (Py.bytes1 MSG_RFID_WRITE_COMPLETED)) writing in
      current_state writing = RFID_WRITE_MODE
      /\ current_state s = RFID_WRITE_MODE
      /\ trace s = trace writing).
Proof.
  split; [|split; [reflexivity|split; [reflexivity|vm_compute; repeat split]]].
  intros now s.
  transitivity (set_trace (trace (process_arduino_message now MSG_RFID_WRITE_COMPLETED s)) s);
    [reflexivity|].
  f_equal. change (MSG_RFID_WRITE_COMPLETED =? MSG_RFID_WRITE_COMPLETED) with true.
  same_trace.
Qed.

(** ** The look-ahead after a single-byte opcode *)

(** The parts of the look-ahead that work: on an empty buffer an opcode byte
    other than ['\n'] followed by silence is dispatched once and leaves the
    buffer empty; followed by a byte that is not a colon it is dispatched
    once and that byte is what the buffer holds afterwards. *)
Lemma lookahead_silence (c : ascii) (rest : list rx) :
  is_opcode c -> c <> Py.NL ->
  uart_frames EmptyString (Rx c :: Quiet :: rest)
  = (Simple (Py.byte_val c) :: fst (uart_frames EmptyString rest),
     snd (uart_frames EmptyString rest)).
Proof.
  intros [H1 H2] Hn. cbn [uart_frames].
  apply Ascii.eqb_neq in Hn. rewrite Hn. cbn [append]. unfold starts_frame.
  apply Z.leb_le in H1, H2. rewrite H1, H2. cbn.
  now destruct (uart_frames EmptyString rest).
Qed.

Lemma lookahead_keeps_next_byte (c next : ascii) (rest : list rx) :
  is_opcode c -> c <> Py.NL -> next <> Py.COLON ->
  uart_frames EmptyString (Rx c :: Rx next :: rest)
  = (Simple (Py.byte_val c) :: fst (uart_frames (String next EmptyString) rest),
     snd (uart_frames (String next EmptyString) rest)).
Proof.
  intros [H1 H2] Hn Hc. cbn [uart_frames].
  apply Ascii.eqb_neq in Hn, Hc. rewrite Hn. cbn [append]. unfold starts_frame.
  apply Z.leb_le in H1, H2. rewrite H1, H2, Hc. cbn.
  now destruct (uart_frames (String next EmptyString) rest).
Qed.

(** C3 (the code departs from the claim): the byte read during the
    look-ahead is stored in [uart_buffer] but is not examined as the start
    of a frame.  When the motion-detected byte is followed at once by the
    motion-stopped byte, [Simple 2] is dispatched and the byte 3 only sits in
    the buffer, whereas that byte arriving on an empty buffer is dispatched
    as [Simple 3]; a heartbeat byte that follows later is swallowed with it.
    The controller therefore stays in [MOTION_DETECTED] where two separate
    deliveries bring it back to [READY].  The opcode 10, being ['\n'], is
    never dispatched even when followed by silence. *)
Theorem lookahead_byte_is_not_dispatched :
  uart_frames EmptyString [Rx "002"; Rx "003"; Quiet]
    = ([Simple 2], String "003" EmptyString)
  /\ uart_frames EmptyString [Rx "003"; Quiet] = ([Simple 3], EmptyString)
  /\ uart_frames EmptyString [Rx "002"; Rx "003"; Quiet; Rx "012"; Quiet]
     = ([Simple 2], String "003" (String "012" EmptyString))
  /\ current_state
       (main_loop [(0, mkInput None [Rx "002"; Rx "003"]); (20, idle)] initial)
     = MOTION_DETECTED
  /\ current_state
       (main_loop [(0, mkInput None [Rx "002"]); (20, mkInput None [Rx "003"])] initial)
     = READY
  /\ uart_frames EmptyString [Rx "010"; Quiet] = ([], EmptyString).
Proof. vm_compute. repeat split. Qed.

(** ** Frames with data: encoder against decoder *)

Lemma sent_with_data (cmd : Z) (data : string) :
  sent (send_uart_command_with_data cmd data)
  = String (ascii_of_N (Z.to_N cmd))
      (String Py.COLON (data ++ String Py.NL EmptyString)).
Proof. reflexivity. Qed.

Lemma arrivals_app (a b : string) :
  arrivals (a ++ b) = arrivals a ++ arrivals b.
Proof.
  unfold arrivals. induction a as [|c a IH]; cbn; [reflexivity|].
  now rewrite IH.
Qed.

Lemma byte_val_bytes1 (cmd : Z) :
  0 <= cmd < 256 -> Py.byte_val (ascii_of_N (Z.to_N cmd)) = cmd.
Proof.
  intros H. unfold Py.byte_val. rewrite N_ascii_embedding; lia.
Qed.

Lemma append_assoc (a b c : string) : ((a ++ b) ++ c = a ++ (b ++ c))%string.
Proof. induction a as [|x a IH]; cbn; [reflexivity|]. now rewrite IH. Qed.

Lemma append_nil_r (a : string) : (a ++ EmptyString = a)%string.
Proof. induction a as [|x a IH]; cbn; [reflexivity|]. now rewrite IH. Qed.

Lemma length_snoc (buf : string) (c : ascii) :
  String.length (buf ++ String c EmptyString) = S (String.length buf).
Proof. induction buf as [|x buf IH]; cbn; [reflexivity|]. now rewrite IH. Qed.

(** Inside a frame (the buffer is not empty) bytes other than ['\n'] are
    appended to the buffer and nothing is dispatched. *)
Lemma uart_frames_accumulate (data : string) :
  forall (buf : string) (rest : list rx),
    buf <> EmptyString ->
    ~ In Py.NL (list_ascii_of_string data) ->
    uart_frames buf (arrivals data ++ rest) = uart_frames (buf ++ data) rest.
Proof.
  induction data as [|c data IH]; intros buf rest Hbuf Hnl.
  - cbn [arrivals list_ascii_of_string map app]. now rewrite append_nil_r.
  - cbn in Hnl. cbn [arrivals list_ascii_of_string map app uart_frames].
    destruct (Ascii.eqb_spec c Py.NL) as [->|Hc]; [tauto|].
    unfold starts_frame. rewrite length_snoc.
    destruct buf as [|b buf]; [congruence|]. cbn [String.length Nat.eqb andb].
    replace (S (S (String.length buf)) =? 1)%nat with false by reflexivity.
    cbn [andb]. fold (arrivals data).
    rewrite IH; [|destruct buf; discriminate|tauto].
    f_equal. now rewrite append_assoc.
Qed.

Lemma split_colon_code (c : ascii) (data : string) :
  c <> Py.COLON ->
  Py.split_colon (String c (String Py.COLON data))
  = Some (String c EmptyString, data).
Proof.
  intros Hc. cbn. apply Ascii.eqb_neq in Hc. now rewrite Hc.
Qed.

(** The decoder on the bytes of one frame whose code byte is neither
    ['\n'] nor [':']. *)
Lemma uart_frames_frame (c : ascii) (data : string) :
  c <> Py.NL -> c <> Py.COLON ->
  Py.utf8_check data = true ->
  ~ In Py.NL (list_ascii_of_string data) ->
  uart_frames EmptyString
    (arrivals (String c (String Py.COLON (data ++ String Py.NL EmptyString))))
  = ([WithData (Py.byte_val c) (Py.strip data)], EmptyString).
Proof.
  intros Hn Hc Hu Hd.
  assert (body : uart_frames (String c (String Py.COLON EmptyString))
                   (arrivals (data ++ String Py.NL EmptyString))
                 = ([WithData (Py.byte_val c) (Py.strip data)], EmptyString)).
  { rewrite arrivals_app, uart_frames_accumulate by (auto; discriminate).
    cbn [arrivals list_ascii_of_string map uart_frames append].
    replace (Ascii.eqb Py.NL Py.NL) with true by reflexivity.
    unfold parse_frame. rewrite split_colon_code by exact Hc.
    unfold Py.decode. rewrite Hu. reflexivity. }
  cbn [arrivals list_ascii_of_string map uart_frames append].
  fold (arrivals (data ++ String Py.NL EmptyString)).
  apply Ascii.eqb_neq in Hn. rewrite Hn.
  replace (Ascii.eqb Py.COLON Py.NL) with false by reflexivity.
  replace (Ascii.eqb Py.COLON Py.COLON) with true by reflexivity.
  destruct (starts_frame (String c EmptyString) c); [exact body|].
  replace (starts_frame (String c (String Py.COLON EmptyString)) Py.COLON)
    with false by reflexivity.
  exact body.
Qed.

(** C4, as stated, fails: a payload of one blank comes back empty, and the
    codes 10 (['\n']) and 58 ([':']) cannot carry data at all.  The three
    payloads are valid text without a newline. *)
Lemma round_trip_counterexamples :
  ~ round_trip 6 " "
  /\ uart_frames EmptyString (arrivals (sent (send_uart_command_with_data 6 " ")))
     = ([WithData 6 ""], EmptyString)
  /\ ~ round_trip 10 "k"
  /\ ~ round_trip 58 "k"
  /\ Py.utf8_check " " = true /\ Py.utf8_check "k" = true
  /\ ~ In Py.NL (list_ascii_of_string " ")
  /\ ~ In Py.NL (list_ascii_of_string "k").
Proof.
  unfold round_trip. vm_compute.
  repeat split; try discriminate; intros [H|[]]; discriminate.
Qed.

(** C4 (amended): for every code byte other than 10 and 58 and every payload
    text without ['\n'], the bytes written by [send_uart_command_with_data],
    arriving back to back on an empty buffer, are decoded to exactly one
    message with that code and with the payload stripped of leading and
    trailing white space; the buffer is empty afterwards.  Only the first
    colon is taken as the delimiter, so colons in the payload come through,
    and the empty payload yields the empty text. *)
Theorem encoded_frame_decodes_to_stripped_payload :
  forall (cmd : Z) (data : string),
    0 <= cmd < 256 -> cmd <> 10 -> cmd <> 58 ->
    Py.utf8_check data = true ->
    ~ In Py.NL (list_ascii_of_string data) ->
    uart_frames EmptyString (arrivals (sent (send_uart_command_with_data cmd data)))
    = ([WithData cmd (Py.strip data)], EmptyString).
Proof.
  intros cmd data Hr H10 H58 Hu Hd.
  rewrite sent_with_data, uart_frames_frame; auto.
  - now rewrite byte_val_bytes1.
  - intros E. apply (f_equal Py.byte_val) in E. rewrite byte_val_bytes1 in E by exact Hr.
    now apply H10.
  - intros E. apply (f_equal Py.byte_val) in E. rewrite byte_val_bytes1 in E by exact Hr.
    now apply H58.
Qed.

Lemma encoded_frame_decodes_to_stripped_payload_witness :
  uart_frames EmptyString
    (arrivals (sent (send_uart_command_with_data MSG_RFID_READ_SUCCESS " 04:A1:B2 ")))
  = ([WithData MSG_RFID_READ_SUCCESS "04:A1:B2"], EmptyString).
Proof.
  apply (encoded_frame_decodes_to_stripped_payload MSG_RFID_READ_SUCCESS " 04:A1:B2 ").
  - split; [discriminate | reflexivity].
  - discriminate.
  - discriminate.
  - reflexivity.
  - intros H. repeat (destruct H as [H|H]; [discriminate|]). exact H.
Defined.

(** ** The blink driver against direct LED calls *)





Lemma last_toggle_switches_off (now : Z) (s : Pico) :
  phases_left s = 1%nat -> toggle_due now s = true ->
  led_blink_active (update_led_blink now s) = false
  /\ led_blink_is_on (update_led_blink now s) = false
  /\ trace (update_led_blink now s) = trace s ++ writes (set_led_color LED_OFF).
Proof.
  destruct s as [cs mst adt crs ma adet adp lah ac act cnt mx lt on col lph ub tr].
  unfold toggle_due, phases_left, update_led_blink. run_program.
  intros Hp H. apply andb_prop in H as [-> Hd]. rewrite Hd. cbn [negb].
  destruct (Z.leb_spec mx (cnt + 1)); [|lia].
  repeat split. rewrite <- ?app_assoc. cbn [app]. reflexivity.
Qed.


Lemma phases_after_start (now : Z) (c : color) (n : Z) (s : Pico) :
  1 <= n -> phases_left (start_led_blink now c n s) = Z.to_nat (2 * n).
Proof.
  intros H. unfold phases_left. run_program. f_equal. lia.
Qed.




(** * Further properties of the script *)

(** Case analysis on the tests a handler makes, on a state given by its
    fields. *)
Ltac cases :=
  repeat (match goal with
          | |- context [if ?b then _ else _] => destruct b eqn:?
          | |- context [match ?x with READY => _ | _ => _ end] => destruct x
          end; run_program).

Lemma wire_app (a b : list effect) : wire (a ++ b) = (wire a ++ wire b)%string.
Proof.
  induction a as [|[d|t m] a IH]; cbn [app wire]; [reflexivity| |exact IH].
  now rewrite IH, append_assoc.
Qed.

(** ** Reset, re-enable and the button *)

(** X1: [reset_alarm] is idempotent on the controller: whatever the state, it
    leaves [READY] with the manual flag, the permanent flag and the deadline
    cleared, so a second reset changes only the trace, where it repeats the
    same output.  The button message (opcode 5) does what the command
    [CMD_RESET_ALARM] does, and [enable_alarm] reaches the same controller
    state as [reset_alarm]. *)
Theorem reset_alarm_idempotent :
  forall (now : Z) (s : Pico),
    controller (reset_alarm (reset_alarm s)) = controller (reset_alarm s)
    /\ trace (reset_alarm (reset_alarm s)) = trace (reset_alarm s) ++ writes reset_alarm
    /\ current_state (reset_alarm s) = READY
    /\ manually_activated (reset_alarm s) = false
    /\ alarm_disable_permanent (reset_alarm s) = false
    /\ alarm_disable_end_time (reset_alarm s) = 0
    /\ process_arduino_message now MSG_BUTTON_PRESSED s
       = sub_cb now topic_sub "CMD_RESET_ALARM" s
    /\ controller (enable_alarm s) = controller (reset_alarm s).
Proof.
  intros now s. repeat split. same_trace.
Qed.

(** ** LED colours *)







(** ** Motion messages while the alarm is active or disabled *)

Lemma motion_message_reported (now opcode : Z) (s : Pico) :
  motion_message opcode ->
  current_state s = ALARM_ACTIVE \/ current_state s = ALARM_DISABLED ->
  process_arduino_message now opcode s = set_trace (trace s ++ [motion_event opcode]) s.
Proof.
  destruct s as [cs mst adt crs ma adet adp lah ac act cnt mx lt on col lph ub tr].
  cbn [current_state]. intros [-> | ->] [-> | ->]; reflexivity.
Qed.

(** X3: in [ALARM_ACTIVE] and in [ALARM_DISABLED] any sequence of
    motion-detected and motion-stopped messages is only reported: the state
    afterwards is the state before with one event per message appended to
    the trace, so the mode, the timers and the flags are as they were and no
    byte is written to the device. *)
Theorem motion_is_only_reported_when_active_or_disabled :
  forall (now : Z) (opcodes : list Z) (s : Pico),
    Forall motion_message opcodes ->
    current_state s = ALARM_ACTIVE \/ current_state s = ALARM_DISABLED ->
    let s' := dispatch_all now (map Simple opcodes) s in
    s' = set_trace (trace s ++ map motion_event opcodes) s
    /\ wire (trace s') = wire (trace s).
Proof.
  intros now opcodes s Hall Hs s'. subst s'.
  assert (E : dispatch_all now (map Simple opcodes) s
              = set_trace (trace s ++ map motion_event opcodes) s).
  { revert s Hs. induction Hall as [|op ops Hop _ IH]; intros s Hs.
    - cbn [map dispatch_all fold_left]. unfold dispatch_all; cbn [fold_left].
      now rewrite app_nil_r.
    - change (dispatch_all now (map Simple (op :: ops)) s)
        with (dispatch_all now (map Simple ops) (process_arduino_message now op s)).
      rewrite (motion_message_reported now op s Hop Hs), IH by exact Hs.
      cbn [map]. change (trace (set_trace ?t s)) with t.
      unfold set_trace; cbn. now rewrite <- app_assoc. }
  split; [exact E|]. rewrite E. change (trace (set_trace ?t s)) with t.
  rewrite wire_app.
  assert (W : wire (map motion_event opcodes) = EmptyString)
    by (clear; induction opcodes; cbn; auto).
  now rewrite W, append_nil_r.
Qed.

Lemma motion_is_only_reported_when_active_or_disabled_witness :
  let armed := activate_alarm_manual initial in
  current_state (dispatch_all 5 (map Simple [MSG_MOTION_DETECTED; MSG_MOTION_STOPPED]) armed)
  = ALARM_ACTIVE.
Proof.
  destruct (motion_is_only_reported_when_active_or_disabled 5
              [MSG_MOTION_DETECTED; MSG_MOTION_STOPPED] (activate_alarm_manual initial))
    as [E _].
  - constructor; [left; reflexivity|]. constructor; [right; reflexivity|]. constructor.
  - left. reflexivity.
  - cbv zeta. rewrite E. reflexivity.
Defined.

(** ** Idle iterations *)

Ltac fields s :=
  destruct s as [cs mst adt crs ma adet adp lah ac act cnt mx lt on col lph ub tr].

Lemma pico_heartbeat_keeps_security now s : security (pico_heartbeat now s) = security s.
Proof. fields s. unfold security. run_program. cases; reflexivity. Qed.

Lemma check_arduino_connection_keeps_security now s :
  security (check_arduino_connection now s) = security s.
Proof. fields s. unfold security. run_program. cases; reflexivity. Qed.

Lemma update_led_blink_keeps_security now s :
  security (update_led_blink now s) = security s.
Proof. fields s. unfold security. run_program. cases; reflexivity. Qed.

Lemma uart_poll_nothing now s : uart_poll now [] s = s.
Proof. fields s. reflexivity. Qed.

Lemma check_motion_timeout_not_due now s :
  motion_due now s = false -> check_motion_timeout now s = s.
Proof.
  fields s. unfold motion_due, check_motion_timeout. cbn [current_state motion_start_time].
  destruct (state_eqb cs MOTION_DETECTED); [|reflexivity].
  cbn [andb]. now intros ->.
Qed.

Lemma check_alarm_timeout_not_due now s :
  deadline_due now s = false -> legacy_due now s = false ->
  check_alarm_timeout now s = s.
Proof.
  fields s. unfold deadline_due, legacy_due, check_alarm_timeout.
  cbn [current_state alarm_disable_permanent alarm_disable_end_time alarm_disabled_time].
  destruct (state_eqb cs ALARM_DISABLED); [|reflexivity].
  destruct adp; [reflexivity|]. cbn [andb negb].
  destruct ((0 <? adet) && (adet <=? now)); [discriminate|]. intros _.
  cbn [negb andb]. now intros ->.
Qed.

Lemma timers_depend_on_security now s s' :
  security s = security s' -> timers_quiet now s = timers_quiet now s'.
Proof.
  fields s. destruct s' as [cs' mst' adt' crs' ma' adet' adp' lah' ac' act' cnt' mx' lt'
                             on' col' lph' ub' tr'].
  unfold security. cbn. intros H. injection H as -> -> -> -> -> -> -> ->. reflexivity.
Qed.

Lemma timers_quiet_parts now s :
  timers_quiet now s = true ->
  motion_due now s = false /\ deadline_due now s = false /\ legacy_due now s = false.
Proof.
  unfold timers_quiet. intros H.
  apply andb_prop in H as [H H3]. apply andb_prop in H as [H1 H2].
  now rewrite negb_true_iff in H1, H2, H3.
Qed.

Lemma idle_iteration_quiet now s :
  timers_quiet now s = true -> security (main_loop_iteration now idle s) = security s.
Proof.
  intros Hq. unfold_iteration.
  pose proof (pico_heartbeat_keeps_security now s) as P.
  rewrite (timers_depend_on_security now s (pico_heartbeat now s)) in Hq by now symmetry.
  destruct (timers_quiet_parts _ _ Hq) as (H1 & H2 & H3).
  rewrite check_motion_timeout_not_due, check_alarm_timeout_not_due by assumption.
  rewrite uart_poll_nothing, update_led_blink_keeps_security,
    check_arduino_connection_keeps_security.
  exact P.
Qed.

Lemma idle_run_quiet (times : list Z) (s : Pico) :
  Forall (fun now => timers_quiet now s = true) times ->
  security (main_loop (idle_at times) s) = security s.
Proof.
  intros Hall. revert Hall.
  assert (G : forall s0, security s0 = security s ->
                Forall (fun now => timers_quiet now s = true) times ->
                security (main_loop (idle_at times) s0) = security s).
  { induction times as [|now times IH]; intros s0 E Hall; [exact E|].
    inversion Hall as [|? ? Hnow Hrest]; subst.
    unfold idle_at. cbn [map]. rewrite main_loop_cons. apply IH; [|exact Hrest].
    rewrite idle_iteration_quiet; [exact E|].
    now rewrite (timers_depend_on_security now s0 s E). }
  now apply G.
Qed.

(** X4: an idle loop iteration (no MQTT message, no byte) in which neither
    the motion grace period, nor a timed-disable deadline, nor the legacy
    60 s re-arm is due leaves every variable of the security controller as
    it is: state, timestamps, flags, stored RFID secret and receive buffer;
    and so does any run of such iterations. *)
Theorem idle_iterations_without_due_timer_change_nothing :
  forall (times : list Z) (s : Pico),
    Forall (fun now => timers_quiet now s = true) times ->
    security (main_loop (idle_at times) s) = security s.
Proof. intros times s. apply idle_run_quiet. Qed.

Lemma idle_iterations_without_due_timer_change_nothing_witness :
  security (main_loop (idle_at [10; 20000; 59000]) (handle_auth_success 0 initial))
  = security (handle_auth_success 0 initial).
Proof.
  apply (idle_iterations_without_due_timer_change_nothing [10; 20000; 59000]).
  repeat constructor.
Defined.

(** ** Permanent and timed disable *)

(** X5: while the controller is in [ALARM_DISABLED] with the permanent flag
    set, no timer lifts the disable: after any number of idle iterations, at
    any clock readings, the security controller is exactly as before. *)
Theorem permanent_disable_outlasts_idle_time :
  forall (times : list Z) (s : Pico),
    current_state s = ALARM_DISABLED ->
    alarm_disable_permanent s = true ->
    security (main_loop (idle_at times) s) = security s.
Proof.
  intros times s Hs Hp. apply idle_run_quiet.
  apply Forall_forall. intros now _.
  unfold timers_quiet, motion_due, deadline_due, legacy_due. now rewrite Hs, Hp.
Qed.

Lemma permanent_disable_outlasts_idle_time_witness :
  current_state
    (main_loop (idle_at [61000; 3600000; 86400000]) (disable_alarm_permanent initial))
  = ALARM_DISABLED.
Proof.
  pose proof (permanent_disable_outlasts_idle_time [61000; 3600000; 86400000]
                (disable_alarm_permanent initial) eq_refl eq_refl) as H.
  exact (f_equal (fun p => fst (fst (fst (fst (fst (fst (fst p))))))) H).
Defined.

Lemma security_fields s s' :
  security s = security s' ->
  current_state s = current_state s'
  /\ motion_start_time s = motion_start_time s'
  /\ alarm_disabled_time s = alarm_disabled_time s'
  /\ current_rfid_secret s = current_rfid_secret s'
  /\ manually_activated s = manually_activated s'
  /\ alarm_disable_end_time s = alarm_disable_end_time s'
  /\ alarm_disable_permanent s = alarm_disable_permanent s'
  /\ uart_buffer s = uart_buffer s'.
Proof. unfold security. intros H. injection H. intuition. Qed.


Lemma check_alarm_timeout_legacy now s :
  legacy_due now s = true ->
  check_alarm_timeout now s
  = (set_current_state READY ;; set_led_color LED_OFF ;;
     safe_mqtt_publish topic_pub "ALARM_REARMED") s.
Proof.
  fields s. unfold legacy_due, check_alarm_timeout.
  cbn [current_state alarm_disable_permanent alarm_disable_end_time alarm_disabled_time].
  destruct (state_eqb cs ALARM_DISABLED); [|discriminate].
  destruct adp; [discriminate|]. cbn [andb negb].
  destruct ((0 <? adet) && (adet <=? now)); [discriminate|]. cbn [andb negb].
  now intros ->.
Qed.

(** An idle iteration comes down to the alarm-disable check when the motion
    timer is not due: the other passes keep the security controller and only
    append to the trace. *)
Lemma idle_iteration_alarm_check now s :
  motion_due now s = false ->
  exists s1,
    security s1 = security s /\ extends s s1
    /\ security (main_loop_iteration now idle s) = security (check_alarm_timeout now s1)
    /\ extends (check_alarm_timeout now s1) (main_loop_iteration now idle s).
Proof.
  intros Hm. exists (pico_heartbeat now s).
  pose proof (pico_heartbeat_keeps_security now s) as P.
  split; [exact P|]. split; [apply pico_heartbeat_extends|].
  unfold_iteration.
  assert (Hm1 : motion_due now (pico_heartbeat now s) = false).
  { destruct (security_fields _ _ P) as (e1 & e2 & _).
    unfold motion_due in *. now rewrite e1, e2. }
  rewrite (check_motion_timeout_not_due _ _ Hm1), uart_poll_nothing.
  split.
  - now rewrite update_led_blink_keeps_security, check_arduino_connection_keeps_security.
  - eapply extends_trans; [apply check_arduino_connection_extends|].
    apply update_led_blink_extends.
Qed.


Lemma legacy_rearm_result s :
  let s' := (set_current_state READY ;; set_led_color LED_OFF ;;
             safe_mqtt_publish topic_pub "ALARM_REARMED") s in
  security s'
  = (READY, motion_start_time s, alarm_disabled_time s, current_rfid_secret s,
     manually_activated s, alarm_disable_end_time s, alarm_disable_permanent s,
     uart_buffer s)
  /\ trace s' = trace s ++ writes (set_led_color LED_OFF)
                  ++ [Publish topic_pub "ALARM_REARMED"].
Proof. split; [reflexivity|]. same_trace. Qed.

Lemma timed_disable_pending (now minutes : Z) (waits : list Z) (s : Pico) :
  0 < now + minutes * 60 * 1000 ->
  Forall (fun t => t < now + minutes * 60 * 1000) waits ->
  security (main_loop (idle_at waits) (disable_alarm_timed now minutes s))
  = security (disable_alarm_timed now minutes s).
Proof.
  intros Hpos Hwaits. set (disabled := disable_alarm_timed now minutes s).
  apply idle_run_quiet.
  eapply Forall_impl; [|exact Hwaits]. intros t Ht. cbv beta in Ht.
  unfold timers_quiet, motion_due, deadline_due, legacy_due.
  change (current_state disabled) with ALARM_DISABLED.
  change (alarm_disable_permanent disabled) with false.
  change (alarm_disable_end_time disabled) with (now + minutes * 60 * 1000).
  cbn [state_eqb andb negb].
  destruct (Z.ltb_spec 0 (now + minutes * 60 * 1000)); [|lia].
  destruct (Z.leb_spec (now + minutes * 60 * 1000) t); [lia|].
  destruct (Z.eqb_spec (now + minutes * 60 * 1000) 0); [lia|]. reflexivity.
Qed.



(** X7: the deadline of a timed disable is compared with the raw clock
    reading, which stays below [TICKS_PERIOD].  When
    [now + minutes * 60000] reaches [TICKS_PERIOD], no clock reading ever
    reaches the deadline: through any number of idle iterations the
    controller stays in [ALARM_DISABLED] with the deadline pending. *)
Theorem timed_disable_past_clock_wrap_is_never_lifted :
  forall (now minutes : Z) (times : list Z) (s : Pico),
    TICKS_PERIOD <= now + minutes * 60 * 1000 ->
    Forall (fun t => 0 <= t < TICKS_PERIOD) times ->
    let disabled := disable_alarm_timed now minutes s in
    security (main_loop (idle_at times) disabled) = security disabled
    /\ current_state (main_loop (idle_at times) disabled) = ALARM_DISABLED.
Proof.
  intros now minutes times s Hwrap Htimes disabled.
  assert (P : 0 < TICKS_PERIOD) by reflexivity.
  assert (Hw : security (main_loop (idle_at times) disabled) = security disabled).
  { apply timed_disable_pending; [lia|].
    eapply Forall_impl; [|exact Htimes]. intros t Ht. cbv beta in Ht. lia. }
  split; [exact Hw|].
  exact (f_equal (fun p => fst (fst (fst (fst (fst (fst (fst p))))))) Hw).
Qed.

Lemma timed_disable_past_clock_wrap_is_never_lifted_witness :
  current_state
    (main_loop (idle_at [1073741000; 0; 5000; 60000; 1000000000])
       (disable_alarm_timed 1073740824 1 initial))
  = ALARM_DISABLED.
Proof.
  apply (timed_disable_past_clock_wrap_is_never_lifted 1073740824 1
           [1073741000; 0; 5000; 60000; 1000000000] initial).
  - discriminate.
  - repeat constructor; discriminate.
Defined.

(** ** The 60 s disable after an RFID authentication *)

Lemma ticks_diff_after (t d : Z) :
  0 <= t < TICKS_PERIOD -> 0 <= d < TICKS_HALF -> ticks_diff (ticks_add t d) t = d.
Proof. intros Ht Hd. apply ticks_diff_add; [exact Ht|]. pose proof TICKS_HALF_value. lia. Qed.

(** X8: an [AUTH_SUCCESS] reply that is not blocked disables the alarm for
    60 s.  With no disable mode pending, the reply puts the controller in
    [ALARM_DISABLED], records the clock reading, switches the buzzer off and
    the LED green and publishes the acknowledgement and
    [ALARM_DISABLED_RFID]; idle iterations up to 60 s later change nothing;
    the first idle iteration more than 60 s later returns to [READY],
    switches the LED off and publishes [ALARM_REARMED]. *)
Theorem rfid_disable_rearms_after_sixty_seconds :
  forall (t0 late : Z) (waits : list Z) (s : Pico),
    manually_activated s && state_eqb (current_state s) ALARM_ACTIVE = false ->
    alarm_disable_permanent s = false ->
    alarm_disable_end_time s = 0 ->
    0 <= t0 < TICKS_PERIOD ->
    Forall (fun d => 0 <= d <= alarm_disable_duration) waits ->
    alarm_disable_duration < late < TICKS_HALF ->
    let disabled := sub_cb t0 topic_auth_response "AUTH_SUCCESS" s in
    let waiting := main_loop (idle_at (map (ticks_add t0) waits)) disabled in
    let s' := main_loop_iteration (ticks_add t0 late) idle waiting in
    current_state disabled = ALARM_DISABLED
    /\ alarm_disabled_time disabled = t0
    /\ trace disabled
       = trace s ++ [UartWrite (Py.bytes1 CMD_SET_BUZZER_OFF)]
           ++ writes (set_led_color LED_GREEN)
           ++ [Publish topic_auth_request "ACK_AUTH_SUCCESS";
               Publish topic_pub "ALARM_DISABLED_RFID"]
    /\ security waiting = security disabled
    /\ current_state s' = READY
    /\ exists before after,
         trace s' = before ++ writes (set_led_color LED_OFF)
                      ++ [Publish topic_pub "ALARM_REARMED"] ++ after
         /\ extends waiting (set_trace before waiting).
Proof.
  intros t0 late waits s Hblock Hp He Ht Hwaits Hlate disabled waiting s'.
  pose proof TICKS_HALF_value as HH. unfold alarm_disable_duration in *.
  assert (E : disabled
              = (set_current_state ALARM_DISABLED ;; set_alarm_disabled_time t0 ;;
                 send_uart_command CMD_SET_BUZZER_OFF ;; set_led_color LED_GREEN ;;
                 safe_mqtt_publish topic_auth_request "ACK_AUTH_SUCCESS" ;;
                 safe_mqtt_publish topic_pub "ALARM_DISABLED_RFID") s).
  { subst disabled.
    change (sub_cb t0 topic_auth_response "AUTH_SUCCESS" s) with (handle_auth_success t0 s).
    unfold handle_auth_success. now rewrite Hblock. }
  assert (Hd : security disabled
               = (ALARM_DISABLED, motion_start_time s, t0, current_rfid_secret s,
                  manually_activated s, 0, false, uart_buffer s)).
  { rewrite E, <- He, <- Hp. reflexivity. }
  assert (Htr : trace disabled
                = trace s ++ [UartWrite (Py.bytes1 CMD_SET_BUZZER_OFF)]
                    ++ writes (set_led_color LED_GREEN)
                    ++ [Publish topic_auth_request "ACK_AUTH_SUCCESS";
                        Publish topic_pub "ALARM_DISABLED_RFID"]).
  { rewrite E. same_trace. }
  clear E. clearbody disabled.
  assert (Hw : security waiting = security disabled).
  { apply idle_run_quiet. rewrite Forall_map.
    eapply Forall_impl; [|exact Hwaits]. intros d Hdr. cbv beta in Hdr.
    unfold security in Hd. injection Hd as d1 _ d3 _ _ d6 d7 _.
    unfold timers_quiet, motion_due, deadline_due, legacy_due.
    rewrite d1, d3, d6, d7, ticks_diff_after by lia. cbn [state_eqb andb negb].
    unfold alarm_disable_duration. change (0 <? 0) with false. cbn [andb negb].
    destruct (Z.ltb_spec 60000 d); [lia|]. now rewrite Bool.andb_false_r. }
  repeat (split; [first [exact Htr | exact Hw
                        | unfold security in Hd; now injection Hd]|]).
  rewrite Hd in Hw. clearbody waiting.
  unfold security in Hw. injection Hw as w1 _ w3 _ _ w6 w7 _.
  destruct (idle_iteration_alarm_check (ticks_add t0 late) waiting)
    as (s1 & E1 & X1 & E2 & X2).
  { unfold motion_due. now rewrite w1. }
  destruct (security_fields _ _ E1) as (a1 & _ & a3 & _ & _ & a6 & a7 & _).
  assert (Hdue : legacy_due (ticks_add t0 late) s1 = true).
  { unfold legacy_due. rewrite a1, a3, a6, a7, w1, w3, w6, w7, ticks_diff_after by lia.
    cbn [state_eqb andb negb]. unfold alarm_disable_duration.
    change (0 <? 0) with false. cbn [andb negb]. change (0 =? 0) with true.
    destruct (Z.ltb_spec 60000 late); [reflexivity|lia]. }
  rewrite (check_alarm_timeout_legacy _ _ Hdue) in E2, X2.
  destruct (legacy_rearm_result s1) as [R T]. cbv zeta in R, T.
  fold s' in E2, X2. rewrite R in E2. clearbody s'.
  destruct X2 as [after Hafter]. destruct X1 as [pre Hpre].
  unfold security in E2. injection E2 as f1 _.
  split; [exact f1|].
  exists (trace waiting ++ pre), after. split.
  - rewrite Hafter, T, Hpre. now rewrite <- !app_assoc.
  - now exists pre.
Qed.

Lemma rfid_disable_rearms_after_sixty_seconds_witness :
  let disabled := sub_cb 500 topic_auth_response "AUTH_SUCCESS" (activate_alarm initial) in
  current_state disabled = ALARM_DISABLED
  /\ current_state (main_loop (idle_at [1500; 60500; 60501]) disabled) = READY.
Proof.
  destruct (rfid_disable_rearms_after_sixty_seconds 500 60001 [1000; 60000]
              (activate_alarm initial)) as (H1 & _ & _ & _ & H2 & _).
  - reflexivity.
  - reflexivity.
  - reflexivity.
  - split; [discriminate | reflexivity].
  - repeat constructor; discriminate.
  - split; reflexivity.
  - split; [exact H1 | exact H2].
Defined.

(** ** Single-byte messages through the main loop *)

Lemma lookahead_end (c : ascii) :
  is_opcode c -> c <> Py.NL ->
  uart_frames EmptyString [Rx c] = ([Simple (Py.byte_val c)], EmptyString).
Proof.
  intros [H1 H2] Hn. cbn [uart_frames].
  apply Ascii.eqb_neq in Hn. rewrite Hn. cbn [append]. unfold starts_frame.
  apply Z.leb_le in H1, H2. now rewrite H1, H2.
Qed.

Lemma main_loop_app (a b : list (Z * loop_input)) (s : Pico) :
  main_loop (a ++ b) s = main_loop b (main_loop a s).
Proof.
  revert s. induction a as [|[now inp] a IH]; intros s; [reflexivity|].
  cbn [app]. now rewrite !main_loop_cons, IH.
Qed.

(** With no timer due and an empty buffer, an iteration that finds one opcode
    byte on the line hands it to [process_arduino_message]; the passes before
    keep the security controller. *)
Lemma byte_iteration now (c : ascii) s :
  timers_quiet now s = true -> uart_buffer s = EmptyString ->
  is_opcode c -> c <> Py.NL ->
  exists s0,
    security s0 = security s /\ extends s s0
    /\ main_loop_iteration now (mkInput None [Rx c]) s
       = set_uart_buffer EmptyString (process_arduino_message now (Py.byte_val c) s0).
Proof.
  intros Hq Hb Hc Hn.
  exists (update_led_blink now (check_arduino_connection now (pico_heartbeat now s))).
  pose proof (pico_heartbeat_keeps_security now s) as P.
  rewrite (timers_depend_on_security now s (pico_heartbeat now s)) in Hq by now symmetry.
  destruct (timers_quiet_parts _ _ Hq) as (H1 & H2 & H3).
  assert (S0 : security (update_led_blink now
                           (check_arduino_connection now (pico_heartbeat now s)))
               = security s)
    by now rewrite update_led_blink_keeps_security,
         check_arduino_connection_keeps_security.
  split; [exact S0|]. split.
  - eapply extends_trans; [apply pico_heartbeat_extends|].
    eapply extends_trans; [apply check_arduino_connection_extends|].
    apply update_led_blink_extends.
  - unfold_iteration.
    rewrite check_motion_timeout_not_due, check_alarm_timeout_not_due by assumption.
    set (s0 := update_led_blink now _) in *.
    destruct (security_fields _ _ S0) as (_ & _ & _ & _ & _ & _ & _ & B).
    unfold uart_poll. rewrite B, Hb, (lookahead_end c Hc Hn). reflexivity.
Qed.

Lemma motion_detected_in_ready now s :
  current_state s = READY ->
  security (set_uart_buffer EmptyString (process_arduino_message now MSG_MOTION_DETECTED s))
  = (MOTION_DETECTED, now, alarm_disabled_time s, current_rfid_secret s,
     manually_activated s, alarm_disable_end_time s, alarm_disable_permanent s,
     EmptyString).
Proof. fields s. cbn [current_state]. intros ->. reflexivity. Qed.

Lemma motion_stopped_in_grace now s :
  current_state s = MOTION_DETECTED ->
  security (set_uart_buffer EmptyString (process_arduino_message now MSG_MOTION_STOPPED s))
  = (READY, motion_start_time s, alarm_disabled_time s, current_rfid_secret s,
     manually_activated s, alarm_disable_end_time s, alarm_disable_permanent s,
     EmptyString).
Proof. fields s. cbn [current_state]. intros ->. reflexivity. Qed.

Lemma ready_is_quiet now s : current_state s = READY -> timers_quiet now s = true.
Proof.
  intros H. unfold timers_quiet, motion_due, deadline_due, legacy_due. now rewrite H.
Qed.

(** X9: motion that stops within the grace period never raises the alarm.
    From [READY] with an empty buffer: the motion byte at [t0], idle
    iterations within the 5 s, and the motion-stopped byte read at most 5 s
    after [t0] bring the controller back to [READY] with all flags and the
    disable mode as they were; after that, idle iterations at any clock
    readings leave it there. *)
Theorem motion_stopped_within_grace_cancels_alarm :
  forall (s : Pico) (t0 stop : Z) (polls later : list Z),
    current_state s = READY ->
    uart_buffer s = EmptyString ->
    0 <= t0 < TICKS_PERIOD ->
    Forall (fun d => 0 <= d <= motion_grace_period) polls ->
    0 <= stop <= motion_grace_period ->
    let s1 :=
      main_loop ((t0, received (Py.bytes1 MSG_MOTION_DETECTED))
                   :: idle_at (map (ticks_add t0) polls)
                   ++ [(ticks_add t0 stop, received (Py.bytes1 MSG_MOTION_STOPPED))]) s in
    let s2 := main_loop (idle_at later) s1 in
    security s1
    = (READY, t0, alarm_disabled_time s, current_rfid_secret s, manually_activated s,
       alarm_disable_end_time s, alarm_disable_permanent s, EmptyString)
    /\ security s2 = security s1
    /\ current_state s2 = READY.
Proof.
  intros s t0 stop polls later Hs Hb Ht Hpolls Hstop s1 s2.
  pose proof TICKS_HALF_value as HH. unfold motion_grace_period in *.
  assert (O2 : is_opcode "002" /\ "002"%char <> Py.NL)
    by (split; [split|]; discriminate).
  assert (O3 : is_opcode "003" /\ "003"%char <> Py.NL)
    by (split; [split|]; discriminate).
  set (m := main_loop_iteration t0 (mkInput None [Rx "002"]) s).
  set (w := main_loop (idle_at (map (ticks_add t0) polls)) m).
  assert (E1 : s1 = main_loop_iteration (ticks_add t0 stop) (mkInput None [Rx "003"]) w).
  { subst s1 w m. rewrite main_loop_cons, main_loop_app.
    change (received (Py.bytes1 MSG_MOTION_DETECTED)) with (mkInput None [Rx "002"]).
    change (received (Py.bytes1 MSG_MOTION_STOPPED)) with (mkInput None [Rx "003"]).
    rewrite main_loop_cons. reflexivity. }
  clearbody s1.
  (* the motion byte *)
  destruct (byte_iteration t0 "002" s (ready_is_quiet t0 s Hs) Hb (proj1 O2) (proj2 O2))
    as (a0 & A1 & _ & A2).
  destruct (security_fields _ _ A1) as (a1 & _ & a3 & a4 & a5 & a6 & a7 & _).
  pose proof (motion_detected_in_ready t0 a0 (eq_trans a1 Hs)) as M.
  change (Py.byte_val "002") with MSG_MOTION_DETECTED in A2.
  rewrite <- A2, a3, a4, a5, a6, a7 in M. fold m in M. clear A2 A1 a0 a1 a3 a4 a5 a6 a7.
  (* the wait *)
  assert (W : security w = security m).
  { apply idle_run_quiet. rewrite Forall_map.
    eapply Forall_impl; [|exact Hpolls]. intros d Hd. cbv beta in Hd.
    unfold security in M. injection M as m1 m2 _.
    unfold timers_quiet, motion_due, deadline_due, legacy_due.
    rewrite m1, m2, ticks_diff_after by lia. cbn [state_eqb andb negb].
    unfold motion_grace_period. destruct (Z.ltb_spec 5000 d); [lia|reflexivity]. }
  rewrite M in W. clearbody w. clearbody m.
  (* the motion-stopped byte *)
  assert (Q : timers_quiet (ticks_add t0 stop) w = true).
  { unfold security in W. injection W as w1 w2 _.
    unfold timers_quiet, motion_due, deadline_due, legacy_due.
    rewrite w1, w2, ticks_diff_after by lia. cbn [state_eqb andb negb].
    unfold motion_grace_period. destruct (Z.ltb_spec 5000 stop); [lia|reflexivity]. }
  destruct (security_fields w (set_uart_buffer EmptyString
              (set_motion_start_time t0 (set_current_state MOTION_DETECTED s))))
    as (w1 & w2 & w3 & w4 & w5 & w6 & w7 & w8); [rewrite W; reflexivity|].
  cbn [current_state motion_start_time alarm_disabled_time current_rfid_secret
         manually_activated alarm_disable_end_time alarm_disable_permanent uart_buffer
         set_uart_buffer set_motion_start_time set_current_state] in w1, w2, w3, w4,
    w5, w6, w7, w8.
  destruct (byte_iteration (ticks_add t0 stop) "003" w Q w8 (proj1 O3) (proj2 O3))
    as (b0 & B1 & _ & B2).
  destruct (security_fields _ _ B1) as (b1 & b2 & b3 & b4 & b5 & b6 & b7 & _).
  pose proof (motion_stopped_in_grace (ticks_add t0 stop) b0 (eq_trans b1 w1)) as R.
  change (Py.byte_val "003") with MSG_MOTION_STOPPED in B2.
  rewrite <- B2, b2, b3, b4, b5, b6, b7, w2, w3, w4, w5, w6, w7 in R.
  assert (S1 : security s1
               = (READY, t0, alarm_disabled_time s, current_rfid_secret s,
                  manually_activated s, alarm_disable_end_time s,
                  alarm_disable_permanent s, EmptyString))
    by (rewrite E1; exact R).
  clear E1.
  assert (C1 : current_state s1 = READY)
    by (unfold security in S1; now injection S1).
  assert (S2 : security s2 = security s1).
  { apply idle_run_quiet. apply Forall_forall. intros now _.
    now apply ready_is_quiet. }
  split; [exact S1|]. split; [exact S2|].
  destruct (security_fields _ _ S2) as (c1 & _). now rewrite c1.
Qed.

Lemma motion_stopped_within_grace_cancels_alarm_witness :
  current_state
    (main_loop [(100, received (Py.bytes1 MSG_MOTION_DETECTED)); (2100, idle);
                (5100, received (Py.bytes1 MSG_MOTION_STOPPED));
                (5200, idle); (9000, idle)] initial)
  = READY.
Proof.
  destruct (motion_stopped_within_grace_cancels_alarm initial 100 5000 [2000]
              [5200; 9000]) as (_ & _ & H).
  - reflexivity.
  - reflexivity.
  - split; [discriminate | reflexivity].
  - repeat constructor; discriminate.
  - split; discriminate.
  - exact H.
Defined.

(** ** What the decoder dispatches *)

Lemma byte_val_range (c : ascii) : 0 <= Py.byte_val c < 256.
Proof.
  unfold Py.byte_val. pose proof (N_ascii_bounded c). lia.
Qed.

Lemma byte_val_inj (c d : ascii) : Py.byte_val c = Py.byte_val d -> c = d.
Proof.
  unfold Py.byte_val. intros H. apply N2Z.inj in H.
  rewrite <- (ascii_N_embedding c), <- (ascii_N_embedding d). now rewrite H.
Qed.

Lemma split_colon_head (buf : string) (code : ascii) (h t : string) :
  Py.split_colon buf = Some (String code h, t) -> code <> Py.COLON.
Proof.
  destruct buf as [|c r]; cbn; [discriminate|].
  destruct (Ascii.eqb_spec c Py.COLON) as [->|Hc]; [discriminate|].
  destruct (Py.split_colon r) as [[h' t']|]; [|discriminate].
  intros H. injection H as -> _ _. exact Hc.
Qed.

Lemma parse_frame_dispatchable (buf : string) (m : DeviceMessage) :
  parse_frame buf = Some m -> dispatchable m.
Proof.
  unfold parse_frame.
  destruct (Py.split_colon buf) as [[[|code h] t]|] eqn:E; try discriminate.
  destruct (Py.decode t); [|discriminate].
  intros H. injection H as <-. cbn. split; [apply byte_val_range|].
  intros H58. apply (split_colon_head _ _ _ _ E).
  apply byte_val_inj. exact H58.
Qed.

Lemma starts_frame_opcode (buf : string) (c : ascii) :
  starts_frame buf c = true -> c <> Py.NL -> dispatchable (Simple (Py.byte_val c)).
Proof.
  unfold starts_frame. intros H Hn.
  apply andb_prop in H as [H H2]. apply andb_prop in H as [_ H1].
  apply Z.leb_le in H1, H2. cbn. split; [lia|].
  intros H10. apply Hn. apply byte_val_inj. exact H10.
Qed.

Lemma uart_frames_dispatchable_upto (n : nat) :
  forall (line : list rx) (buf : string),
    (List.length line <= n)%nat ->
    Forall dispatchable (fst (uart_frames buf line)).
Proof.
  induction n as [|n IH]; intros line buf Hlen.
  - destruct line; [constructor|cbn in Hlen; lia].
  - destruct line as [|[c|] rest]; [constructor| |].
    + cbn [List.length] in Hlen. cbn [uart_frames].
      destruct (Ascii.eqb_spec c Py.NL) as [->|Hn].
      * pose proof (IH rest EmptyString ltac:(lia)) as Hrest.
        destruct (uart_frames EmptyString rest) as [msgs b]. cbn [fst] in *.
        destruct (parse_frame buf) eqn:E; cbn [app]; [|exact Hrest].
        constructor; [eapply parse_frame_dispatchable; exact E|exact Hrest].
      * destruct (starts_frame (buf ++ String c EmptyString) c) eqn:S;
          [|apply IH; lia].
        pose proof (starts_frame_opcode _ _ S Hn) as Hop.
        destruct rest as [|[next|] rest'].
        -- cbn [fst]. now constructor.
        -- cbn [List.length] in Hlen.
           destruct (Ascii.eqb next Py.COLON); [apply IH; lia|].
           pose proof (IH rest' (String next EmptyString) ltac:(lia)) as Hrest.
           destruct (uart_frames (String next EmptyString) rest') as [msgs b].
           cbn [fst] in *. now constructor.
        -- cbn [List.length] in Hlen.
           pose proof (IH rest' EmptyString ltac:(lia)) as Hrest.
           destruct (uart_frames EmptyString rest') as [msgs b].
           cbn [fst] in *. now constructor.
    + cbn [List.length] in Hlen. cbn [uart_frames]. apply IH. lia.
Qed.

(** X10: whatever the receive buffer holds and whatever arrives on the line,
    a single-byte message handed to [process_arduino_message] has an opcode
    in 1..28 other than 10 (the byte ['\n'] always ends a frame), and the code
    of a message with data is never the colon.  In particular the main loop
    never runs the [MSG_RFID_WRITE_COMPLETED] branch of
    [process_arduino_message]. *)
Theorem decoder_dispatches_only_opcodes :
  forall (buf : string) (line : list rx),
    Forall dispatchable (fst (uart_frames buf line))
    /\ ~ In (Simple MSG_RFID_WRITE_COMPLETED) (fst (uart_frames buf line)).
Proof.
  intros buf line.
  pose proof (uart_frames_dispatchable_upto (List.length line) line buf (le_n _)) as H.
  split; [exact H|].
  intros Hin. rewrite Forall_forall in H. apply H in Hin. cbn in Hin.
  destruct Hin as [_ Hne]. now apply Hne.
Qed.

(** ** An RFID read, from the line to the authentication request *)

Lemma set_uart_buffer_same (s : Pico) :
  set_uart_buffer (uart_buffer s) s = s.
Proof. fields s. reflexivity. Qed.

(** X11: a read-success frame (code 6, colon, key, newline) arriving back to
    back on an empty buffer stores the key, stripped of surrounding white
    space, as the current RFID secret and publishes [AUTH_REQUEST:<key>] on
    the auth-request topic; nothing else changes, no byte is written to the
    device, and the buffer is empty again.  A second frame overwrites the
    stored key. *)
Theorem rfid_read_frame_requests_authentication :
  forall (now : Z) (key : string) (s : Pico),
    uart_buffer s = EmptyString ->
    Py.utf8_check key = true ->
    one_line key ->
    let frame := String "006" (String ":" (key ++ String Py.NL EmptyString)) in
    let s' := uart_poll now (arrivals frame) s in
    s' = set_trace (trace s ++ [Publish topic_auth_request
                                  ("AUTH_REQUEST:" ++ Py.strip key)])
           (set_current_rfid_secret (Some (Py.strip key)) s)
    /\ current_rfid_secret s' = Some (Py.strip key)
    /\ current_state s' = current_state s
    /\ uart_buffer s' = EmptyString
    /\ wire (trace s') = wire (trace s).
Proof.
  intros now key s Hb Hu Hk frame s'.
  assert (E : s' = set_trace (trace s ++ [Publish topic_auth_request
                                            ("AUTH_REQUEST:" ++ Py.strip key)])
                     (set_current_rfid_secret (Some (Py.strip key)) s)).
  { subst s' frame. unfold uart_poll. rewrite Hb.
    pose proof (uart_frames_frame "006" key) as F. unfold Py.COLON in F.
    rewrite F by (auto; discriminate). clear F.
    change (Py.byte_val "006") with MSG_RFID_READ_SUCCESS.
    rewrite <- Hb at 1.
    change (dispatch_all now [WithData MSG_RFID_READ_SUCCESS (Py.strip key)] s)
      with (handle_rfid_detected (Py.strip key) s).
    change (uart_buffer s) with (uart_buffer (handle_rfid_detected (Py.strip key) s)).
    rewrite set_uart_buffer_same. reflexivity. }
  clearbody s'. subst s'. repeat split; try assumption.
  change (trace (set_trace ?t _)) with t.
  now rewrite wire_app, append_nil_r.
Qed.

Lemma rfid_read_frame_requests_authentication_witness :
  let frame := String "006" (String ":" ("04A1B2 " ++ String Py.NL EmptyString)) in
  current_rfid_secret (uart_poll 7 (arrivals frame) initial) = Some "04A1B2"%string.
Proof.
  destruct (rfid_read_frame_requests_authentication 7 "04A1B2 " initial)
    as (_ & H & _).
  - reflexivity.
  - reflexivity.
  - intros H. repeat (destruct H as [H|H]; [discriminate|]). exact H.
  - exact H.
Defined.

(** ** Commands with an argument *)

Lemma continuation_byte (c : ascii) :
  (Z.land (Py.byte_val c) 192 =? 128)
  = (128 <=? Py.byte_val c) && (Py.byte_val c <? 192).
Proof.
  assert (all : forallb (fun n => Bool.eqb (Z.land (Z.of_nat n) 192 =? 128)
                                    ((128 <=? Z.of_nat n) && (Z.of_nat n <? 192)))
                  (List.seq 0 256) = true) by (vm_compute; reflexivity).
  rewrite forallb_forall in all. pose proof (byte_val_range c) as Hr.
  replace (Py.byte_val c) with (Z.of_nat (Z.to_nat (Py.byte_val c))) by lia.
  apply Bool.eqb_prop, all, in_seq. lia.
Qed.

Lemma utf8_check_ascii (c : ascii) (rest : string) :
  Py.byte_val c < 128 ->
  Py.utf8_check (String c rest) = Py.utf8_check rest.
Proof.
  intros H. unfold Py.utf8_check. cbn [Py.utf8_check_from].
  change (negb (0 =? 0)) with false. cbv iota.
  destruct (Z.leb_spec 192 (Py.byte_val c)); [lia|].
  destruct (Z.leb_spec 128 (Py.byte_val c)); [lia|]. reflexivity.
Qed.

Lemma skip_cont_text (text : string) :
  Py.utf8_check text = true -> Py.skip_cont text = text.
Proof.
  destruct text as [|c rest]; [reflexivity|].
  unfold Py.utf8_check. cbn [Py.utf8_check_from Py.skip_cont].
  change (negb (0 =? 0)) with false. cbv iota. rewrite continuation_byte.
  destruct (Z.leb_spec 192 (Py.byte_val c)).
  - intros _. destruct (Z.ltb_spec (Py.byte_val c) 192); [lia|].
    now rewrite Bool.andb_false_r.
  - destruct (Z.leb_spec 128 (Py.byte_val c)); [discriminate|reflexivity].
Qed.

Lemma skip_cont_ascii (c : ascii) (rest : string) :
  Py.byte_val c < 128 -> Py.skip_cont (String c rest) = String c rest.
Proof.
  intros H. cbn [Py.skip_cont]. rewrite continuation_byte.
  destruct (Z.leb_spec 128 (Py.byte_val c)); [lia|reflexivity].
Qed.

(** X12: the command [CMD_RFID_WRITE_PREPARE:<key>] hands the text after the
    colon to [prepare_rfid_write_mode] unchanged, whatever the key (empty,
    with colons or blanks): the controller enters [RFID_WRITE_MODE], the
    device receives the code 23, a colon, the key and a newline, and
    [STATUS_RFID_WRITE_PREPARED:<key>] is published. *)
Theorem rfid_write_prepare_passes_key :
  forall (now : Z) (key : string) (s : Pico),
    Py.utf8_check key = true ->
    let s' := sub_cb now topic_sub ("CMD_RFID_WRITE_PREPARE:" ++ key) s in
    s' = prepare_rfid_write_mode key s
    /\ current_state s' = RFID_WRITE_MODE
    /\ trace s' = trace s
                  ++ [UartWrite (Py.bytes1 CMD_RFID_WRITE_PREPARE); UartWrite ":";
                      UartWrite key; UartWrite (String Py.NL EmptyString);
                      Publish topic_pub ("STATUS_RFID_WRITE_PREPARED:" ++ key)].
Proof.
  intros now key s Hu s'.
  assert (E : s' = prepare_rfid_write_mode key s).
  { subst s'. unfold sub_cb.
    assert (D : Py.decode ("CMD_RFID_WRITE_PREPARE:" ++ key)
                = Some ("CMD_RFID_WRITE_PREPARE:" ++ key)%string).
    { unfold Py.decode.
      change (Py.utf8_check ("CMD_RFID_WRITE_PREPARE:" ++ key)) with (Py.utf8_check key).
      now rewrite Hu. }
    rewrite D. clear D.
    destruct key as [|k key]; [reflexivity|].
    transitivity (prepare_rfid_write_mode (Py.skip_cont (String k key)) s);
      [reflexivity|].
    now rewrite skip_cont_text. }
  rewrite E. split; [reflexivity|]. split; [reflexivity|]. same_trace.
Qed.

Lemma rfid_write_prepare_passes_key_witness :
  current_state (sub_cb 0 topic_sub "CMD_RFID_WRITE_PREPARE:a1:b2" initial)
  = RFID_WRITE_MODE.
Proof.
  destruct (rfid_write_prepare_passes_key 0 "a1:b2" initial) as (_ & H & _).
  - reflexivity.
  - exact H.
Defined.

(** The timed command hands to [int] the text after the first character that
    follows the colon. *)
Lemma timed_command_reads_rest :
  forall (now : Z) (first : ascii) (rest : string) (s : Pico),
    Py.byte_val first < 128 ->
    Py.utf8_check rest = true ->
    sub_cb now topic_sub ("CMD_DISABLE_ALARM_TIMED:" ++ String first rest) s
    = match Py.int rest with
      | Some minutes => disable_alarm_timed now minutes s
      | None => s
      end.
Proof.
  intros now first rest s Hf Hu. unfold sub_cb.
  assert (D : Py.decode ("CMD_DISABLE_ALARM_TIMED:" ++ String first rest)
              = Some ("CMD_DISABLE_ALARM_TIMED:" ++ String first rest)%string).
  { unfold Py.decode.
    change (Py.utf8_check ("CMD_DISABLE_ALARM_TIMED:" ++ String first rest))
      with (Py.utf8_check (String first rest)).
    now rewrite utf8_check_ascii, Hu. }
  rewrite D.
  transitivity
    (match Py.int match Py.skip_cont (String first rest) with
                  | EmptyString => EmptyString
                  | String _ r => Py.skip_cont r
                  end with
     | Some minutes => disable_alarm_timed now minutes s
     | None => s
     end); [reflexivity|].
  rewrite skip_cont_ascii by exact Hf. now rewrite skip_cont_text.
Qed.

Lemma is_digit_val (c : ascii) :
  is_digit c = true -> Py.digit_val c = Some (Py.byte_val c - 48).
Proof. unfold is_digit, Py.digit_val. now intros ->. Qed.

Lemma digits_of_digits (text : string) :
  forall acc, all_digits text = true ->
              Py.digits acc text = Some (decimal_value_from acc text).
Proof.
  induction text as [|c text IH]; intros acc H; [reflexivity|].
  unfold all_digits in H. cbn [list_ascii_of_string forallb] in H.
  apply andb_prop in H as [Hc H].
  cbn [Py.digits decimal_value_from]. rewrite (is_digit_val c Hc).
  now apply IH.
Qed.

Lemma digit_is_no_space (c : ascii) : is_digit c = true -> Py.is_space c = false.
Proof.
  unfold is_digit, Py.is_space. intros H. apply andb_prop in H as [H1 H2].
  apply Z.leb_le in H1, H2.
  destruct (Z.leb_spec 9 (Py.byte_val c)); destruct (Z.leb_spec (Py.byte_val c) 13);
    destruct (Z.eqb_spec (Py.byte_val c) 32); try reflexivity; lia.
Qed.

Lemma rstrip_digits (text : string) : all_digits text = true -> Py.rstrip text = text.
Proof.
  induction text as [|c text IH]; intros H; [reflexivity|].
  unfold all_digits in H. cbn [list_ascii_of_string forallb] in H.
  apply andb_prop in H as [Hc H]. cbn [Py.rstrip]. rewrite (IH H).
  destruct text; [|reflexivity]. now rewrite (digit_is_no_space c Hc).
Qed.

Lemma strip_digits (text : string) : all_digits text = true -> Py.strip text = text.
Proof.
  intros H. unfold Py.strip.
  assert (L : Py.lstrip text = text).
  { destruct text as [|c text]; [reflexivity|].
    unfold all_digits in H. cbn [list_ascii_of_string forallb] in H.
    apply andb_prop in H as [Hc _]. cbn [Py.lstrip].
    now rewrite (digit_is_no_space c Hc). }
  rewrite L. now apply rstrip_digits.
Qed.

Lemma int_of_digits (c : ascii) (text : string) :
  all_digits (String c text) = true ->
  Py.int (String c text) = Some (decimal_value (String c text)).
Proof.
  intros H. unfold Py.int. rewrite (strip_digits _ H).
  unfold all_digits in H. cbn [list_ascii_of_string forallb] in H.
  apply andb_prop in H as [Hc H].
  assert (U : Py.unsigned (String c text) = Some (decimal_value (String c text))).
  { unfold Py.unsigned. rewrite (is_digit_val c Hc).
    now rewrite digits_of_digits by exact H. }
  rewrite <- U. clear U H.
  destruct c as [[] [] [] [] [] [] [] []]; try reflexivity; discriminate Hc.
Qed.

Lemma digits_are_text (text : string) : all_digits text = true -> Py.utf8_check text = true.
Proof.
  induction text as [|c text IH]; intros H; [reflexivity|].
  unfold all_digits in H. cbn [list_ascii_of_string forallb] in H.
  apply andb_prop in H as [Hc H].
  rewrite utf8_check_ascii; [now apply IH|].
  unfold is_digit in Hc. apply andb_prop in Hc as [_ Hc]. apply Z.leb_le in Hc. lia.
Qed.

(** X13: what the timed command does with a decimal argument.  [sub_cb]
    drops the first character after ["CMD_DISABLE_ALARM_TIMED:"] and reads the
    minutes from the digits that follow: with at least one digit left, the
    alarm is disabled for the number those digits write; with none (a
    one-character argument) the command is ignored and nothing changes. *)
Theorem timed_disable_reads_minutes_after_first_character :
  forall (now : Z) (first : ascii) (rest : string) (s : Pico),
    Py.byte_val first < 128 ->
    all_digits rest = true ->
    sub_cb now topic_sub ("CMD_DISABLE_ALARM_TIMED:" ++ String first rest) s
    = match rest with
      | EmptyString => s
      | _ => disable_alarm_timed now (decimal_value rest) s
      end.
Proof.
  intros now first rest s Hf Hd.
  rewrite timed_command_reads_rest by (try exact Hf; now apply digits_are_text).
  destruct rest as [|c rest]; [reflexivity|].
  now rewrite int_of_digits.
Qed.

Lemma timed_disable_reads_minutes_after_first_character_witness :
  alarm_disable_end_time (sub_cb 1000 topic_sub "CMD_DISABLE_ALARM_TIMED:105" initial)
  = 301000
  /\ sub_cb 1000 topic_sub "CMD_DISABLE_ALARM_TIMED:7" initial = initial.
Proof.
  split.
  - change (alarm_disable_end_time
              (sub_cb 1000 topic_sub ("CMD_DISABLE_ALARM_TIMED:" ++ String "1" "05")
                 initial) = 301000).
    rewrite (timed_disable_reads_minutes_after_first_character 1000 "1" "05" initial).
    + reflexivity.
    + reflexivity.
    + reflexivity.
  - change (sub_cb 1000 topic_sub ("CMD_DISABLE_ALARM_TIMED:" ++ String "7" "") initial
            = initial).
    rewrite (timed_disable_reads_minutes_after_first_character 1000 "7" "" initial).
    + reflexivity.
    + reflexivity.
    + reflexivity.
Defined.

(** ** Single command bytes *)

(** X14: a single command byte written with [send_uart_command] and read back
    on an empty buffer, followed by silence, is dispatched as one
    single-byte message exactly when it lies in 1..28 and is not 10.  The
    byte 10 is taken for a frame end and disappears; any other byte is
    dispatched as nothing and stays in the buffer. *)
Theorem single_byte_round_trip :
  forall (cmd : Z),
    0 <= cmd < 256 ->
    uart_frames EmptyString (arrivals (sent (send_uart_command cmd)) ++ [Quiet])
    = if (1 <=? cmd) && (cmd <=? 28) && negb (cmd =? 10)
      then ([Simple cmd], EmptyString)
      else if cmd =? 10 then ([], EmptyString)
      else ([], Py.bytes1 cmd).
Proof.
  intros cmd Hr.
  change (sent (send_uart_command cmd)) with (Py.bytes1 cmd).
  unfold Py.bytes1. cbn [arrivals list_ascii_of_string map app uart_frames].
  pose proof (byte_val_bytes1 cmd Hr) as B.
  set (c := ascii_of_N (Z.to_N cmd)) in *.
  destruct (Ascii.eqb_spec c Py.NL) as [En|En].
  - assert (cmd = 10) as -> by (rewrite <- B, En; reflexivity). reflexivity.
  - assert (cmd <> 10) as Hn by (intros ->; apply En, byte_val_inj; now rewrite B).
    destruct (Z.eqb_spec cmd 10); [contradiction|].
    cbn [append]. unfold starts_frame. rewrite B. cbn [String.length Nat.eqb andb negb].
    rewrite Bool.andb_true_r.
    destruct ((1 <=? cmd) && (cmd <=? 28)); reflexivity.
Qed.

Lemma single_byte_round_trip_witness :
  uart_frames EmptyString (arrivals (sent (send_uart_command MSG_HEARTBEAT)) ++ [Quiet])
  = ([Simple MSG_HEARTBEAT], EmptyString).
Proof.
  apply (single_byte_round_trip MSG_HEARTBEAT). split; [discriminate | reflexivity].
Defined.

(** ** Liveness of the device *)

(** X16: a heartbeat marks the device connected, announcing
    [ARDUINO_CONNECTED] only if it was not; checks up to 30 s after the
    heartbeat do nothing; the first check later than that marks the device
    disconnected and publishes [ARDUINO_DISCONNECTED] once: every further
    check, at any clock reading, does nothing until the next heartbeat. *)
Theorem disconnect_is_announced_once :
  forall (t0 late : Z) (s : Pico),
    0 <= t0 < TICKS_PERIOD ->
    arduino_timeout < late < TICKS_HALF ->
    let up := handle_arduino_heartbeat t0 s in
    let down := check_arduino_connection (ticks_add t0 late) up in
    arduino_connected up = true
    /\ trace up = trace s ++ Publish topic_pub "ARDUINO_HEARTBEAT"
                    :: (if arduino_connected s then []
                        else [Publish topic_pub "ARDUINO_CONNECTED"])
    /\ (forall d, 0 <= d <= arduino_timeout ->
                  check_arduino_connection (ticks_add t0 d) up = up)
    /\ down = set_trace (trace up ++ [Publish topic_pub "ARDUINO_DISCONNECTED"])
                (set_arduino_connected false up)
    /\ (forall now, check_arduino_connection now down = down).
Proof.
  intros t0 late s Ht Hl up down. pose proof TICKS_HALF_value as HH.
  unfold arduino_timeout in *.
  assert (U : arduino_connected up = true /\ last_arduino_heartbeat up = t0
              /\ trace up = trace s ++ Publish topic_pub "ARDUINO_HEARTBEAT"
                              :: (if arduino_connected s then []
                                  else [Publish topic_pub "ARDUINO_CONNECTED"])).
  { subst up. fields s. unfold handle_arduino_heartbeat. run_program.
    destruct ac; run_program; repeat split; rewrite <- ?app_assoc; reflexivity. }
  destruct U as (u1 & u2 & u3). clearbody up.
  assert (D : down = set_trace (trace up ++ [Publish topic_pub "ARDUINO_DISCONNECTED"])
                       (set_arduino_connected false up)).
  { subst down. unfold check_arduino_connection.
    rewrite u1, u2, ticks_diff_after by lia. unfold arduino_timeout.
    destruct (Z.ltb_spec 30000 late); [reflexivity|lia]. }
  split; [exact u1|]. split; [exact u3|]. split; [|split; [exact D|]].
  - intros d Hd. unfold check_arduino_connection.
    rewrite u1, u2, ticks_diff_after by lia. unfold arduino_timeout.
    destruct (Z.ltb_spec 30000 d); [lia|reflexivity].
  - intros now. rewrite D. reflexivity.
Qed.

Lemma disconnect_is_announced_once_witness :
  let up := handle_arduino_heartbeat 1000 initial in
  arduino_connected up = true
  /\ arduino_connected (check_arduino_connection 31001 up) = false.
Proof.
  destruct (disconnect_is_announced_once 1000 30001 initial) as (H1 & _ & _ & H2 & _).
  - split; [discriminate | reflexivity].
  - split; reflexivity.
  - split; [exact H1|]. exact (eq_trans (f_equal arduino_connected H2) eq_refl).
Defined.

(** ** The LED frames of a blink sequence *)

Lemma blink_last_step (now : Z) (s : Pico) :
  toggle_due now s = true -> phases_left s = 1%nat ->
  trace (update_led_blink now s) = trace s ++ writes (set_led_color LED_OFF)
  /\ led_blink_active (update_led_blink now s) = false
  /\ led_blink_is_on (update_led_blink now s) = false.
Proof.
  intros Hd Hp. destruct (last_toggle_switches_off now s Hp Hd) as (a & b & c).
  now repeat split.
Qed.

Lemma blink_step (now : Z) (s : Pico) (k : nat) :
  toggle_due now s = true -> phases_left s = S (S k) ->
  trace (update_led_blink now s)
  = trace s ++ writes (set_led_color (if led_blink_is_on s then LED_OFF
                                      else led_blink_color s))
  /\ phases_left (update_led_blink now s) = S k
  /\ led_blink_is_on (update_led_blink now s) = negb (led_blink_is_on s)
  /\ led_blink_color (update_led_blink now s) = led_blink_color s.
Proof.
  fields s. unfold toggle_due, phases_left, update_led_blink. run_program.
  intros H. apply andb_prop in H as [-> Hd]. rewrite Hd. cbn [negb].
  intros Hp. destruct (Z.leb_spec mx (cnt + 1)); [lia|].
  destruct on; run_program; (split; [rewrite <- ?app_assoc; reflexivity|]);
    (split; [lia|]); split; reflexivity.
Qed.

Lemma blink_run_writes (times : list Z) :
  forall s,
    all_due times s = true ->
    List.length times = phases_left s ->
    trace (led_run (map Poll times) s)
    = trace s ++ blink_writes (led_blink_color s) (led_blink_is_on s) (phases_left s)
    /\ (times <> [] ->
        led_blink_active (led_run (map Poll times) s) = false
        /\ led_blink_is_on (led_run (map Poll times) s) = false).
Proof.
  induction times as [|now times IH]; intros s Hall Hlen.
  - cbn [List.length] in Hlen. rewrite <- Hlen. cbn. split; [now rewrite app_nil_r|].
    congruence.
  - cbn [all_due] in Hall. apply andb_prop in Hall as [Hd Hall].
    cbn [List.length] in Hlen. cbn [map led_run led_step].
    destruct times as [|now' times'].
    + cbn [List.length] in Hlen. symmetry in Hlen.
      destruct (blink_last_step now s Hd Hlen) as (t1 & t2 & t3).
      rewrite Hlen. cbn [map led_run blink_writes]. now repeat split.
    + remember (now' :: times') as rest eqn:Er.
      assert (Hk : phases_left s = S (S (List.length times')))
        by (rewrite <- Hlen, Er; reflexivity).
      destruct (blink_step now s _ Hd Hk) as (t1 & t2 & t3 & t4).
      destruct (IH (update_led_blink now s) Hall) as [T A].
      { rewrite t2, Er. reflexivity. }
      rewrite T, t1, t2, t3, t4, Hk. cbn [blink_writes]. split.
      * now rewrite <- app_assoc.
      * intros _. apply A. rewrite Er. discriminate.
Qed.

Lemma blink_writes_two (c : color) (m : nat) :
  blink_writes c true (S (S (S m)))
  = writes (set_led_color LED_OFF) ++ writes (set_led_color c)
      ++ blink_writes c true (S m).
Proof. reflexivity. Qed.

Lemma blink_writes_pairs (c : color) (k : nat) :
  blink_writes c true (2 * S k)
  = List.concat (repeat (writes (set_led_color LED_OFF) ++ writes (set_led_color c)) k)
      ++ writes (set_led_color LED_OFF) ++ writes (set_led_color LED_OFF).
Proof.
  induction k as [|k IH]; [reflexivity|].
  replace (2 * S (S k))%nat with (S (S (S (S (2 * k))))) by lia.
  rewrite blink_writes_two.
  replace (S (S (2 * k))) with (2 * S k)%nat by lia.
  rewrite IH. cbn [repeat List.concat]. now rewrite <- !app_assoc.
Qed.

(** X15: the frames of a whole blink sequence.  [start_led_blink] with a
    count [n >= 1] sends the colour once; [2 * n] polls that each find the
    200 ms interval elapsed then send, in this order, [n - 1] times LED off
    followed by the colour, and at the end LED off twice: the last regular
    toggle and the forced switch-off.  Afterwards the driver is idle with the
    LED off.  Nothing else is emitted. *)
Theorem blink_sequence_frames :
  forall (now : Z) (c : color) (n : nat) (times : list Z) (s : Pico),
    (1 <= n)%nat ->
    List.length times = (2 * n)%nat ->
    all_due times (start_led_blink now c (Z.of_nat n) s) = true ->
    let s' := led_run (map Poll times) (start_led_blink now c (Z.of_nat n) s) in
    trace s'
    = trace s ++ writes (set_led_color c)
        ++ List.concat (repeat (writes (set_led_color LED_OFF) ++ writes (set_led_color c))
                     (n - 1))
        ++ writes (set_led_color LED_OFF) ++ writes (set_led_color LED_OFF)
    /\ led_blink_active s' = false
    /\ led_blink_is_on s' = false.
Proof.
  intros now c n times s Hn Hlen Hdue s'.
  set (started := start_led_blink now c (Z.of_nat n) s) in *.
  assert (P : phases_left started = (2 * n)%nat).
  { subst started. rewrite phases_after_start by lia. lia. }
  assert (S0 : trace started = trace s ++ writes (set_led_color c)
               /\ led_blink_color started = c /\ led_blink_is_on started = true).
  { subst started. split; [same_trace|split; reflexivity]. }
  destruct S0 as (s1 & s2 & s3). clearbody started.
  destruct (blink_run_writes times started Hdue) as [T A]; [now rewrite P|].
  subst s'. rewrite T, s1, s2, s3, P.
  destruct n as [|k]; [lia|]. rewrite blink_writes_pairs.
  replace (S k - 1)%nat with k by lia.
  split; [now rewrite <- !app_assoc|].
  apply A. destruct times; [cbn in Hlen; lia|discriminate].
Qed.

Lemma blink_sequence_frames_witness :
  let s' := led_run (map Poll [200; 400; 600; 800; 1000; 1200])
              (start_led_blink 0 LED_RED 3 initial) in
  led_blink_active s' = false /\ led_blink_is_on s' = false.
Proof.
  destruct (blink_sequence_frames 0 LED_RED 3 [200; 400; 600; 800; 1000; 1200] initial)
    as (_ & H1 & H2).
  - repeat constructor.
  - reflexivity.
  - vm_compute. reflexivity.
  - split; [exact H1 | exact H2].
Defined.

(** ** Invariants of the whole loop *)

Ltac all_cases :=
  repeat (match goal with
          | |- context [if ?b then _ else _] => destruct b eqn:?
          | |- context [match ?x with READY => _ | _ => _ end] => destruct x
          | |- context [match ?x with Some _ => _ | None => _ end] => destruct x
          end; run_program).

(** Proves that a pass keeps an invariant stated on the fields of the
    state: every branch of the pass is run on a state given by its fields. *)
Ltac pass_keeps inv pass :=
  let s := fresh "s" in
  let H := fresh "H" in
  intros s H; fields s; unfold inv in *; unfold pass; run_program;
  cbn [alarm_disable_permanent alarm_disable_end_time current_rfid_secret] in H;
  all_cases;
  first [ exact H | discriminate | intros _; reflexivity | intros; discriminate ].

Section ModeInvariant.
Variable now : Z.

Lemma sub_cb_mode topic msg : forall s, mode_ok s -> mode_ok (sub_cb now topic msg s).
Proof. pass_keeps mode_ok sub_cb. Qed.

Lemma pico_heartbeat_mode : forall s, mode_ok s -> mode_ok (pico_heartbeat now s).
Proof. pass_keeps mode_ok pico_heartbeat. Qed.

Lemma check_motion_timeout_mode :
  forall s, mode_ok s -> mode_ok (check_motion_timeout now s).
Proof. pass_keeps mode_ok check_motion_timeout. Qed.

Lemma check_alarm_timeout_mode :
  forall s, mode_ok s -> mode_ok (check_alarm_timeout now s).
Proof. pass_keeps mode_ok check_alarm_timeout. Qed.

Lemma check_arduino_connection_mode :
  forall s, mode_ok s -> mode_ok (check_arduino_connection now s).
Proof. pass_keeps mode_ok check_arduino_connection. Qed.

Lemma update_led_blink_mode : forall s, mode_ok s -> mode_ok (update_led_blink now s).
Proof. pass_keeps mode_ok update_led_blink. Qed.

Lemma process_arduino_message_mode code :
  forall s, mode_ok s -> mode_ok (process_arduino_message now code s).
Proof. pass_keeps mode_ok process_arduino_message. Qed.

Lemma process_data_message_mode code data :
  forall s, mode_ok s -> mode_ok (process_data_message now code data s).
Proof. pass_keeps mode_ok process_data_message. Qed.

Lemma dispatch_all_mode msgs : forall s, mode_ok s -> mode_ok (dispatch_all now msgs s).
Proof.
  induction msgs as [|m msgs IH]; intros s H; [exact H|].
  change (dispatch_all now (m :: msgs) s) with (dispatch_all now msgs (dispatch now m s)).
  apply IH. destruct m; cbn [dispatch].
  - now apply process_arduino_message_mode.
  - now apply process_data_message_mode.
Qed.

Lemma uart_poll_mode line : forall s, mode_ok s -> mode_ok (uart_poll now line s).
Proof.
  intros s H. unfold uart_poll.
  destruct (uart_frames (uart_buffer s) line) as [msgs buf].
  pose proof (dispatch_all_mode msgs s H) as D.
  set (d := dispatch_all now msgs s) in *. clearbody d. revert D. clear.
  fields d. exact (fun D => D).
Qed.

Lemma main_loop_iteration_mode inp :
  forall s, mode_ok s -> mode_ok (main_loop_iteration now inp s).
Proof.
  intros s H. unfold main_loop_iteration, check_timeouts, seq.
  apply uart_poll_mode, update_led_blink_mode, check_arduino_connection_mode,
    check_alarm_timeout_mode, check_motion_timeout_mode.
  destruct (mqtt_msg inp) as [[topic msg]|]; cbn [safe_mqtt_check].
  - now apply sub_cb_mode, pico_heartbeat_mode.
  - now apply pico_heartbeat_mode.
Qed.
End ModeInvariant.

(** X17: the two ways of limiting a disable never mix.  Whatever MQTT
    messages and UART bytes the loop is fed, at whatever clock readings, a
    state reached from the initial one that has the permanent flag set has
    no deadline ([alarm_disable_end_time = 0]); more generally every loop
    iteration keeps this property. *)
Theorem permanent_disable_has_no_deadline :
  forall (sched : list (Z * loop_input)) (s : Pico),
    (alarm_disable_permanent s = true -> alarm_disable_end_time s = 0) ->
    alarm_disable_permanent (main_loop sched s) = true ->
    alarm_disable_end_time (main_loop sched s) = 0.
Proof.
  intros sched. fold (forall s, mode_ok s -> mode_ok (main_loop sched s)).
  induction sched as [|[now inp] sched IH]; intros s H; [exact H|].
  rewrite main_loop_cons. now apply IH, main_loop_iteration_mode.
Qed.

Lemma permanent_disable_has_no_deadline_witness :
  let s := main_loop [(5, command "CMD_DISABLE_ALARM_TIMED:15");
                      (9, command "CMD_DISABLE_ALARM_PERMANENT")] initial in
  alarm_disable_permanent s = true /\ alarm_disable_end_time s = 0.
Proof.
  split; [reflexivity|].
  apply (permanent_disable_has_no_deadline
           [(5, command "CMD_DISABLE_ALARM_TIMED:15");
            (9, command "CMD_DISABLE_ALARM_PERMANENT")] initial).
  - discriminate.
  - reflexivity.
Defined.

(** The passes before the UART poll touch neither the stored secret nor the
    receive buffer. *)
Ltac keeps_secret_and_buffer pass :=
  let s := fresh "s" in
  intros s; fields s; unfold pass; run_program; all_cases; split; reflexivity.

Lemma sub_cb_secret_buffer now topic msg :
  forall s, current_rfid_secret (sub_cb now topic msg s) = current_rfid_secret s
            /\ uart_buffer (sub_cb now topic msg s) = uart_buffer s.
Proof. keeps_secret_and_buffer sub_cb. Qed.

Lemma check_motion_timeout_secret_buffer now :
  forall s, current_rfid_secret (check_motion_timeout now s) = current_rfid_secret s
            /\ uart_buffer (check_motion_timeout now s) = uart_buffer s.
Proof. keeps_secret_and_buffer check_motion_timeout. Qed.

Lemma check_alarm_timeout_secret_buffer now :
  forall s, current_rfid_secret (check_alarm_timeout now s) = current_rfid_secret s
            /\ uart_buffer (check_alarm_timeout now s) = uart_buffer s.
Proof. keeps_secret_and_buffer check_alarm_timeout. Qed.

Lemma housekeeping_secret_buffer s s' :
  security s' = security s ->
  current_rfid_secret s' = current_rfid_secret s /\ uart_buffer s' = uart_buffer s.
Proof.
  intros E. destruct (security_fields _ _ E) as (_ & _ & _ & e4 & _ & _ & _ & e8).
  now split.
Qed.

Lemma process_arduino_message_secret_same now code :
  forall s, current_rfid_secret (process_arduino_message now code s)
            = current_rfid_secret s.
Proof.
  intros s. fields s. unfold process_arduino_message. run_program. all_cases; reflexivity.
Qed.

Lemma process_data_message_secret_read now code data :
  forall s, current_rfid_secret (process_data_message now code data s)
            = read_key (WithData code data) (current_rfid_secret s).
Proof.
  intros s. fields s. unfold process_data_message, read_key. run_program.
  all_cases; reflexivity.
Qed.

Lemma dispatch_all_secret_after now msgs :
  forall s, current_rfid_secret (dispatch_all now msgs s)
            = secret_after msgs (current_rfid_secret s).
Proof.
  induction msgs as [|m msgs IH]; intros s; [reflexivity|].
  change (dispatch_all now (m :: msgs) s) with (dispatch_all now msgs (dispatch now m s)).
  rewrite IH. unfold secret_after. cbn [fold_left]. f_equal.
  destruct m as [code|code data]; cbn [dispatch].
  - apply process_arduino_message_secret_same.
  - apply process_data_message_secret_read.
Qed.

Lemma uart_poll_secret_after now line s :
  current_rfid_secret (uart_poll now line s)
  = secret_after (fst (uart_frames (uart_buffer s) line)) (current_rfid_secret s).
Proof.
  unfold uart_poll. destruct (uart_frames (uart_buffer s) line) as [msgs buf].
  cbn [fst]. rewrite <- (dispatch_all_secret_after now msgs s).
  set (d := dispatch_all now msgs s). clearbody d. fields d. reflexivity.
Qed.

Lemma main_loop_iteration_secret_after now inp s :
  current_rfid_secret (main_loop_iteration now inp s)
  = secret_after (fst (uart_frames (uart_buffer s) (uart_rx inp))) (current_rfid_secret s).
Proof.
  unfold main_loop_iteration, check_timeouts, seq.
  rewrite uart_poll_secret_after.
  destruct (housekeeping_secret_buffer _ _ (pico_heartbeat_keeps_security now s))
    as [p1 p2].
  set (s1 := pico_heartbeat now s) in *.
  assert (M : current_rfid_secret (safe_mqtt_check now (mqtt_msg inp) s1)
              = current_rfid_secret s1
              /\ uart_buffer (safe_mqtt_check now (mqtt_msg inp) s1) = uart_buffer s1).
  { destruct (mqtt_msg inp) as [[topic msg]|]; cbn [safe_mqtt_check];
      [apply sub_cb_secret_buffer|now split]. }
  destruct M as [m1 m2]. set (s2 := safe_mqtt_check now (mqtt_msg inp) s1) in *.
  destruct (check_motion_timeout_secret_buffer now s2) as [c1 c2].
  set (s3 := check_motion_timeout now s2) in *.
  destruct (check_alarm_timeout_secret_buffer now s3) as [a1 a2].
  set (s4 := check_alarm_timeout now s3) in *.
  destruct (housekeeping_secret_buffer _ _ (check_arduino_connection_keeps_security now s4))
    as [k1 k2].
  set (s5 := check_arduino_connection now s4) in *.
  destruct (housekeeping_secret_buffer _ _ (update_led_blink_keeps_security now s5))
    as [u1 u2].
  congruence.
Qed.

Lemma secret_after_keeps_a_key msgs :
  forall secret, secret <> None -> secret_after msgs secret <> None.
Proof.
  induction msgs as [|m msgs IH]; intros secret H; [exact H|].
  unfold secret_after. cbn [fold_left]. apply IH.
  destruct m as [code|code data]; cbn [read_key]; [exact H|].
  destruct (code =? MSG_RFID_READ_SUCCESS); [discriminate|exact H].
Qed.

(** X18: the stored RFID secret is replaced by a read and by nothing else.
    After a loop iteration the secret is the one from before, with the
    payload of each read-success message decoded from the line (code 6) put
    in its place in turn: no MQTT message (authentication results included)
    and no timer writes it.  So through iterations that read no byte from
    the device it stays exactly as it is, and once a key is stored a key is
    stored ever after: the secret is never cleared. *)
Theorem rfid_secret_is_replaced_only_by_a_read :
  (forall (now : Z) (inp : loop_input) (s : Pico),
      current_rfid_secret (main_loop_iteration now inp s)
      = secret_after (fst (uart_frames (uart_buffer s) (uart_rx inp)))
          (current_rfid_secret s))
  /\ (forall (sched : list (Z * loop_input)) (s : Pico),
        Forall (fun step => uart_rx (snd step) = []) sched ->
        current_rfid_secret (main_loop sched s) = current_rfid_secret s)
  /\ (forall (sched : list (Z * loop_input)) (s : Pico),
        current_rfid_secret s <> None ->
        current_rfid_secret (main_loop sched s) <> None).
Proof.
  split; [exact main_loop_iteration_secret_after|]. split.
  - intros sched s Hall. revert s.
    induction Hall as [|[now inp] sched Hrx _ IH]; intros s; [reflexivity|].
    rewrite main_loop_cons, IH, main_loop_iteration_secret_after.
    cbn [snd] in Hrx. now rewrite Hrx.
  - intros sched s. revert s.
    induction sched as [|[now inp] sched IH]; intros s H; [exact H|].
    rewrite main_loop_cons. apply IH.
    rewrite main_loop_iteration_secret_after. now apply secret_after_keeps_a_key.
Qed.

Lemma rfid_secret_is_replaced_only_by_a_read_witness :
  let stored := handle_rfid_detected "k" initial in
  current_rfid_secret
    (main_loop [(10, auth_reply "AUTH_SUCCESS"); (70000, command "CMD_RESET_ALARM")]
       stored)
  = Some "k"%string
  /\ current_rfid_secret
       (main_loop [(10, auth_reply "AUTH_FAILED"); (20, received (frame_bytes "006" "n"))]
          stored)
     <> None.
Proof.
  destruct rfid_secret_is_replaced_only_by_a_read as (_ & Hsame & Hkept).
  split.
  - apply (Hsame [(10, auth_reply "AUTH_SUCCESS"); (70000, command "CMD_RESET_ALARM")]
             (handle_rfid_detected "k" initial)).
    repeat (apply Forall_cons; [reflexivity|]). apply Forall_nil.
  - apply (Hkept [(10, auth_reply "AUTH_FAILED");
                  (20, received (frame_bytes "006" "n"))]
             (handle_rfid_detected "k" initial)).
    discriminate.
Defined.

(** ** The RFID write handshake *)

(** X19: the two-step RFID write, from any state.  [prepare_rfid_write_mode]
    followed by [confirm_rfid_write_mode] enters [RFID_WRITE_MODE] and
    appends to the trace, in this order, the code 23, a colon, the key, a
    newline, [STATUS_RFID_WRITE_PREPARED:<key>], the code 24 and
    [STATUS_RFID_WRITE_ACTIVE], so the device receives 23 ':' key newline 24.
    In [RFID_WRITE_MODE] the confirmation alone sends the code 24 and
    publishes [STATUS_RFID_WRITE_ACTIVE]; in any other state it sends nothing
    and publishes [ERROR_RFID_WRITE_NOT_PREPARED], and
    [initialize_rfid_write] does nothing.  The confirmation never changes a
    variable of the security controller, and the legacy
    [enter_rfid_write_mode] is the prepare step. *)
Theorem rfid_write_handshake :
  forall (key : string) (s : Pico),
    (prepare_rfid_write_mode key ;; confirm_rfid_write_mode) s
    = set_trace (trace s
                   ++ [UartWrite (Py.bytes1 CMD_RFID_WRITE_PREPARE); UartWrite ":";
                       UartWrite key; UartWrite (String Py.NL EmptyString);
                       Publish topic_pub ("STATUS_RFID_WRITE_PREPARED:" ++ key);
                       UartWrite (Py.bytes1 CMD_RFID_WRITE_CONFIRM);
                       Publish topic_pub "STATUS_RFID_WRITE_ACTIVE"])
        (set_current_state RFID_WRITE_MODE s)
    /\ wire (trace ((prepare_rfid_write_mode key ;; confirm_rfid_write_mode) s))
       = (wire (trace s)
            ++ Py.bytes1 CMD_RFID_WRITE_PREPARE ++ ":" ++ key ++ String Py.NL EmptyString
            ++ Py.bytes1 CMD_RFID_WRITE_CONFIRM)%string
    /\ (current_state s = RFID_WRITE_MODE ->
        confirm_rfid_write_mode s
        = set_trace (trace s ++ [UartWrite (Py.bytes1 CMD_RFID_WRITE_CONFIRM);
                                 Publish topic_pub "STATUS_RFID_WRITE_ACTIVE"]) s)
    /\ (current_state s <> RFID_WRITE_MODE ->
        confirm_rfid_write_mode s
        = set_trace (trace s ++ [Publish topic_pub "ERROR_RFID_WRITE_NOT_PREPARED"]) s
        /\ initialize_rfid_write s = s)
    /\ security (confirm_rfid_write_mode s) = security s
    /\ enter_rfid_write_mode key s = prepare_rfid_write_mode key s.
Proof.
  intros key s.
  assert (E : (prepare_rfid_write_mode key ;; confirm_rfid_write_mode) s
              = set_trace (trace s
                   ++ [UartWrite (Py.bytes1 CMD_RFID_WRITE_PREPARE); UartWrite ":";
                       UartWrite key; UartWrite (String Py.NL EmptyString);
                       Publish topic_pub ("STATUS_RFID_WRITE_PREPARED:" ++ key);
                       UartWrite (Py.bytes1 CMD_RFID_WRITE_CONFIRM);
                       Publish topic_pub "STATUS_RFID_WRITE_ACTIVE"])
                  (set_current_state RFID_WRITE_MODE s)).
  { transitivity
      (set_trace (trace ((prepare_rfid_write_mode key ;; confirm_rfid_write_mode) s))
         (set_current_state RFID_WRITE_MODE s)); [reflexivity|].
    f_equal. same_trace. }
  split; [exact E|]. split; [|split; [|split; [|split; [|reflexivity]]]].
  - rewrite E. change (trace (set_trace ?t _)) with t. rewrite wire_app.
    cbn [wire]. unfold Py.encode. now rewrite append_nil_r.
  - fields s. cbn [current_state]. intros ->.
    transitivity
      (set_trace (trace (confirm_rfid_write_mode
                           (mkPico RFID_WRITE_MODE mst adt crs ma adet adp lah ac act cnt
                              mx lt on col lph ub tr)))
         (mkPico RFID_WRITE_MODE mst adt crs ma adet adp lah ac act cnt mx lt on col
            lph ub tr)); [reflexivity|].
    f_equal. same_trace.
  - fields s. cbn [current_state]. intros H.
    destruct cs; try contradiction; split; reflexivity.
  - fields s. unfold security, confirm_rfid_write_mode. run_program.
    destruct cs; reflexivity.
Qed.

Lemma rfid_write_handshake_witness :
  confirm_rfid_write_mode initial
  = set_trace (trace initial ++ [Publish topic_pub "ERROR_RFID_WRITE_NOT_PREPARED"])
      initial
  /\ confirm_rfid_write_mode (abort_operation (prepare_rfid_write_mode "k" initial))
     <> prepare_rfid_write_mode "k" initial
  /\ trace (confirm_rfid_write_mode (prepare_rfid_write_mode "k" initial))
     = trace (prepare_rfid_write_mode "k" initial)
         ++ [UartWrite (Py.bytes1 CMD_RFID_WRITE_CONFIRM);
             Publish topic_pub "STATUS_RFID_WRITE_ACTIVE"].
Proof.
  destruct (rfid_write_handshake "k" initial) as (_ & _ & _ & Hout & _).
  destruct (rfid_write_handshake "k" (prepare_rfid_write_mode "k" initial))
    as (_ & _ & Hin & _).
  split; [|split].
  - apply Hout. discriminate.
  - discriminate.
  - rewrite (Hin eq_refl). reflexivity.
Defined.

(** ** Pico heartbeat *)

(** X20: the Pico heartbeat is published at most once per interval.  When
    more than 15 s have passed since the last one, [pico_heartbeat] publishes
    [PICO_HEARTBEAT] and records the clock reading; for the next 15 s it does
    nothing, and the first call after that publishes again. *)
Theorem pico_heartbeat_once_per_interval :
  forall (t0 early late : Z) (s : Pico),
    0 <= t0 < TICKS_PERIOD ->
    pico_heartbeat_interval < ticks_diff t0 (last_pico_heartbeat s) ->
    0 <= early <= pico_heartbeat_interval ->
    pico_heartbeat_interval < late < TICKS_HALF ->
    let beat := pico_heartbeat t0 s in
    beat = set_last_pico_heartbeat t0
             (set_trace (trace s ++ [Publish topic_pub "PICO_HEARTBEAT"]) s)
    /\ pico_heartbeat (ticks_add t0 early) beat = beat
    /\ trace (pico_heartbeat (ticks_add t0 late) beat)
       = trace beat ++ [Publish topic_pub "PICO_HEARTBEAT"].
Proof.
  intros t0 early late s Ht Hdue He Hl beat. pose proof TICKS_HALF_value as HH.
  unfold pico_heartbeat_interval in *.
  assert (B : beat = set_last_pico_heartbeat t0
                       (set_trace (trace s ++ [Publish topic_pub "PICO_HEARTBEAT"]) s)).
  { subst beat. unfold pico_heartbeat. unfold pico_heartbeat_interval.
    apply Z.ltb_lt in Hdue. now rewrite Hdue. }
  split; [exact B|]. clearbody beat. subst beat.
  unfold pico_heartbeat.
  change (last_pico_heartbeat (set_last_pico_heartbeat t0 ?x)) with t0.
  rewrite !ticks_diff_after by lia. unfold pico_heartbeat_interval.
  destruct (Z.ltb_spec 15000 early); [lia|].
  destruct (Z.ltb_spec 15000 late); [|lia].
  split; reflexivity.
Qed.

Lemma pico_heartbeat_once_per_interval_witness :
  let beat := pico_heartbeat 15001 initial in
  pico_heartbeat 30001 beat = beat
  /\ trace (pico_heartbeat 30002 beat) = trace beat ++ [Publish topic_pub "PICO_HEARTBEAT"].
Proof.
  destruct (pico_heartbeat_once_per_interval 15001 15000 15001 initial)
    as (_ & H1 & H2).
  - split; [discriminate | reflexivity].
  - reflexivity.
  - split; discriminate.
  - split; reflexivity.
  - split; [exact H1 | exact H2].
Defined.

(** ** Frames after a newline *)

Lemma frame_one_line (c : ascii) (data : string) :
  c <> Py.NL -> one_line data -> one_line (String c (String Py.COLON data)).
Proof.
  unfold one_line. cbn. intros Hc Hd [H|[H|H]]; [now apply Hc| discriminate |tauto].
Qed.

(** X21: the decoder finds its footing again at a newline read by the main
    loop: whatever the buffer holds, a newline followed by a well-formed
    frame yields that frame's message as the next and only further message
    and leaves the buffer empty. *)
Theorem frame_after_newline_is_decoded :
  forall (buf : string) (code : ascii) (data : string),
    code <> Py.NL -> code <> Py.COLON ->
    Py.utf8_check data = true ->
    one_line data ->
    uart_frames buf (Rx Py.NL :: arrivals (frame_bytes code data))
    = (match parse_frame buf with Some m => [m] | None => [] end
         ++ [WithData (Py.byte_val code) (Py.strip data)],
       EmptyString).
Proof.
  intros buf code data Hn Hc Hu Hd. cbn [uart_frames].
  change (Ascii.eqb Py.NL Py.NL) with true. cbv iota.
  unfold frame_bytes. now rewrite uart_frames_frame.
Qed.

Lemma frame_after_newline_is_decoded_witness :
  uart_frames "garbage" (Rx Py.NL :: arrivals (frame_bytes "006" "key"))
  = ([WithData MSG_RFID_READ_SUCCESS "key"], EmptyString).
Proof.
  apply (frame_after_newline_is_decoded "garbage" "006" "key").
  - discriminate.
  - discriminate.
  - reflexivity.
  - intros H. repeat (destruct H as [H|H]; [discriminate|]). exact H.
Defined.

(** X22: a newline that arrives right after a single opcode byte is consumed
    by the look-ahead and kept as the first byte of the buffer instead of
    ending a frame.  The frame that follows is then decoded with the code 10
    in place of its own code, so its message reaches no handler. *)
Theorem newline_after_opcode_corrupts_next_frame :
  forall (opcode code : ascii) (data : string),
    is_opcode opcode -> opcode <> Py.NL ->
    code <> Py.NL -> code <> Py.COLON ->
    Py.utf8_check data = true ->
    one_line data ->
    uart_frames EmptyString (Rx opcode :: Rx Py.NL :: arrivals (frame_bytes code data))
    = ([Simple (Py.byte_val opcode); WithData 10 (Py.strip data)], EmptyString)
    /\ forall now s, process_data_message now 10 (Py.strip data) s = s.
Proof.
  intros opcode code data Ho Hon Hn Hc Hu Hd. split; [|reflexivity].
  rewrite lookahead_keeps_next_byte by (auto; discriminate).
  assert (F : uart_frames (String Py.NL EmptyString) (arrivals (frame_bytes code data))
              = ([WithData 10 (Py.strip data)], EmptyString)).
  { unfold frame_bytes.
    change (String code (String Py.COLON (data ++ String Py.NL EmptyString)))
      with (String code (String Py.COLON data) ++ String Py.NL EmptyString)%string.
    rewrite arrivals_app, uart_frames_accumulate
      by (try discriminate; now apply frame_one_line).
    cbn [arrivals list_ascii_of_string map uart_frames append].
    change (Ascii.eqb Py.NL Py.NL) with true. cbv iota.
    unfold parse_frame. cbn [Py.split_colon].
    change (Ascii.eqb Py.NL Py.COLON) with false. cbv iota.
    apply Ascii.eqb_neq in Hc. rewrite Hc.
    change (Ascii.eqb Py.COLON Py.COLON) with true. cbv iota.
    unfold Py.decode. rewrite Hu. reflexivity. }
  now rewrite F.
Qed.

Lemma newline_after_opcode_corrupts_next_frame_witness :
  uart_frames EmptyString
    (Rx "002" :: Rx Py.NL :: arrivals (frame_bytes "006" "key"))
  = ([Simple MSG_MOTION_DETECTED; WithData 10 "key"], EmptyString).
Proof.
  apply (newline_after_opcode_corrupts_next_frame "002" "006" "key").
  - split; discriminate.
  - discriminate.
  - discriminate.
  - discriminate.
  - reflexivity.
  - intros H. repeat (destruct H as [H|H]; [discriminate|]). exact H.
Defined.

(** ** A manually armed alarm *)

Lemma manually_armed_security s s' :
  security s = security s' -> manually_armed s -> manually_armed s'.
Proof.
  intros E [H1 H2]. destruct (security_fields _ _ E) as (e1 & _ & _ & _ & e5 & _).
  split; congruence.
Qed.

Lemma manually_armed_quiet now s : manually_armed s -> timers_quiet now s = true.
Proof.
  intros [H _]. unfold timers_quiet, motion_due, deadline_due, legacy_due. now rewrite H.
Qed.

Lemma handle_auth_failed_keeps_security now s :
  security (handle_auth_failed now s) = security s.
Proof. reflexivity. Qed.

Lemma auth_reply_keeps_manual_alarm now msg s :
  manually_armed s -> security (sub_cb now topic_auth_response msg s) = security s.
Proof.
  intros [Hs Hm]. unfold sub_cb. destruct (Py.decode msg) as [msg_str|]; [|reflexivity].
  change (String.eqb topic_auth_response topic_auth_response) with true. cbv iota.
  destruct (String.eqb msg_str "AUTH_SUCCESS").
  - unfold handle_auth_success. rewrite Hm, Hs. reflexivity.
  - destruct (String.eqb msg_str "AUTH_FAILED"); [|reflexivity].
    apply handle_auth_failed_keeps_security.
Qed.

Lemma auth_or_idle_iteration now inp s :
  auth_or_idle (now, inp) -> manually_armed s ->
  security (main_loop_iteration now inp s) = security s.
Proof.
  intros [Hrx Hmq] Ha. cbn [snd] in Hrx, Hmq.
  pose proof (pico_heartbeat_keeps_security now s) as P.
  assert (A1 : manually_armed (pico_heartbeat now s))
    by (eapply manually_armed_security; [symmetry; exact P|exact Ha]).
  assert (M : security (safe_mqtt_check now (mqtt_msg inp) (pico_heartbeat now s))
              = security s).
  { destruct Hmq as [-> | [msg ->]]; cbn [safe_mqtt_check]; [exact P|].
    now rewrite auth_reply_keeps_manual_alarm. }
  set (s1 := safe_mqtt_check now (mqtt_msg inp) (pico_heartbeat now s)) in *.
  assert (A2 : manually_armed s1)
    by (eapply manually_armed_security; [symmetry; exact M|exact Ha]).
  destruct (timers_quiet_parts _ _ (manually_armed_quiet now s1 A2)) as (q1 & q2 & q3).
  unfold main_loop_iteration, check_timeouts, seq. fold s1. rewrite Hrx.
  rewrite check_motion_timeout_not_due, check_alarm_timeout_not_due by assumption.
  now rewrite uart_poll_nothing, update_led_blink_keeps_security,
    check_arduino_connection_keeps_security.
Qed.

(** X23: a manually armed alarm yields neither to the auth topic nor to
    time.  From a state in [ALARM_ACTIVE] with [manually_activated] set, any
    run of loop iterations that read no byte from the device and receive
    either nothing or a message on the auth-response topic ([AUTH_SUCCESS],
    [AUTH_FAILED] or anything else) leaves every variable of the security
    controller as it was; the alarm stays active and manually armed. *)
Theorem manual_alarm_survives_auth_replies_and_time :
  forall (sched : list (Z * loop_input)) (s : Pico),
    Forall auth_or_idle sched ->
    current_state s = ALARM_ACTIVE ->
    manually_activated s = true ->
    security (main_loop sched s) = security s
    /\ current_state (main_loop sched s) = ALARM_ACTIVE
    /\ manually_activated (main_loop sched s) = true.
Proof.
  intros sched s Hall Hs Hm.
  assert (G : forall s0, security s0 = security s ->
                security (main_loop sched s0) = security s).
  { induction Hall as [|[now inp] sched Hstep _ IH]; intros s0 E; [exact E|].
    rewrite main_loop_cons. apply IH.
    rewrite auth_or_idle_iteration; [exact E|exact Hstep|].
    eapply manually_armed_security; [symmetry; exact E|now split]. }
  pose proof (G s eq_refl) as E. split; [exact E|].
  destruct (security_fields _ _ E) as (e1 & _ & _ & _ & e5 & _).
  split; congruence.
Qed.

Lemma manual_alarm_survives_auth_replies_and_time_witness :
  current_state
    (main_loop [(10, auth_reply "AUTH_SUCCESS"); (20, auth_reply "AUTH_FAILED");
                (70000, idle); (70010, auth_reply "AUTH_SUCCESS")]
       (activate_alarm_manual initial))
  = ALARM_ACTIVE.
Proof.
  apply (manual_alarm_survives_auth_replies_and_time
           [(10, auth_reply "AUTH_SUCCESS"); (20, auth_reply "AUTH_FAILED");
            (70000, idle); (70010, auth_reply "AUTH_SUCCESS")]
           (activate_alarm_manual initial)).
  - repeat (apply Forall_cons;
            [split; [reflexivity
                    |first [left; reflexivity | right; eexists; reflexivity]]|]).
    apply Forall_nil.
  - reflexivity.
  - reflexivity.
Defined.
